(** * rez-bind-files: the Houdini bind module ([src/bind/houdini.py])

    A shallow embedding of the four functions that derive a package
    descriptor from an installed Houdini tree -- [get_houdini_version],
    [get_python_version], [get_tools] and [bind] -- together with the
    Python built-ins, the [pathlib] methods and the one regular expression
    they call.

    Conventions.
    - A Python [str] is a [string]; a character is an [ascii], that is a
      code point in 0..255.  On that range the class [\d] of a [str]
      pattern is exactly ['0'..'9'], and [str] comparison is comparison of
      code points, which is [String.leb].
    - A call that may raise returns a [result]; the exception is a value.
    - The file system and the rez package repository are the two
      collaborators of the module: the first is read through a record of
      oracles ([FileSystem]), the second is a list of registrations that
      [bind] extends.  The environment hooks [commands], [pre_commands] and
      [post_commands] are only handed to rez; they appear as names. *)

From Stdlib Require Import Ascii.
From stdpp Require Import base list sorting strings gmap.

(* ================================================================== *)
(** ** Python: exceptions, results and the [str] and [list] built-ins *)
(* ================================================================== *)

Module Py.

(** The [errno] values a directory listing can fail with. *)
Inductive errno : Set :=
| ENOENT   (* FileNotFoundError *)
| ENOTDIR  (* NotADirectoryError *)
| EACCES.  (* PermissionError *)

Inductive exn : Set :=
| AttributeError (msg : string)
| ValueError (msg : string)
| RuntimeError (msg : string)
| OSError (code : errno) (filename : string).

Inductive result (A : Type) : Type :=
| Ok (a : A)
| Raise (e : exn).
Global Arguments Ok {A} a.
Global Arguments Raise {A} e.

Definition and_then {A B} (m : result A) (k : A → result B) : result B :=
  match m with
  | Ok a => k a
  | Raise e => Raise e
  end.

Definition returns {A} (m : result A) : Prop := ∃ a, m = Ok a.

(** [s[n:]] for a literal [n >= 0]. *)
Fixpoint str_slice_from (n : nat) (s : string) : string :=
  match n, s with
  | O, _ => s
  | S n', String _ s' => str_slice_from n' s'
  | S _, EmptyString => EmptyString
  end.

(** The scan behind [s.split(sep)] for a non-empty [sep]: [skip] counts
    the characters of a separator just recognised that are still to be
    passed over. *)
Fixpoint split_from (sep : string) (skip : nat) (s : string) : list string :=
  match s with
  | EmptyString => [EmptyString]
  | String c s' =>
      match skip with
      | S k => split_from sep k s'
      | O =>
          if String.prefix sep s
          then EmptyString :: split_from sep (String.length sep - 1) s'
          else match split_from sep 0 s' with
               | h :: t => String c h :: t
               | [] => [String c EmptyString]
               end
      end
  end.

(** [s.split(sep)]: [ValueError] on the empty separator. *)
Definition str_split (sep s : string) : result (list string) :=
  match sep with
  | EmptyString => Raise (ValueError "empty separator")
  | String _ _ => Ok (split_from sep 0 s)
  end.

(** [sep.join(parts)] for a list of [str]. *)
Definition str_join (sep : string) (parts : list string) : string :=
  String.concat sep parts.

(** [sub in s]. *)
Fixpoint str_contains (sub s : string) : bool :=
  String.prefix sub s ||
  match s with
  | EmptyString => false
  | String _ s' => str_contains sub s'
  end.

(** [l[:n]] for a literal [n >= 0]. *)
Definition list_slice_to {A} (n : nat) (l : list A) : list A := take n l.

(** [sorted(l)] on a list of [str]: a stable merge sort by [<=] on code
    points. *)
Definition sorted (l : list string) : list string := merge_sort String.le l.

End Py.

Import Py.

#[global] Instance result_bind : MBind result := λ A B k m, and_then m k.
#[global] Instance result_ret : MRet result := λ A a, Ok a.

(* ================================================================== *)
(** ** pathlib (POSIX flavour)                                         *)
(* ================================================================== *)

Module Pathlib.

(** A parsed path: the root is [""], ["/"] or ["//"]; the tail holds the
    segments, none of them empty or ["."]. *)
Record Path : Set := mkPath { root : string; tail : list string }.

(** [posixpath.splitroot]: the root and what follows it. *)
Definition splitroot (p : string) : string * string :=
  match p with
  | String "/"%char (String "/"%char (String "/"%char r)) =>
      ("/", String "/"%char (String "/"%char r))
  | String "/"%char (String "/"%char r) => ("//", r)
  | String "/"%char r => ("/", r)
  | _ => ("", p)
  end.

Definition keep_segment (x : string) : bool :=
  negb (String.eqb x "") && negb (String.eqb x ".").

(** [pathlib.Path(s)]. *)
Definition Path_of_str (s : string) : Path :=
  let '(r, rel) := splitroot s in
  mkPath r (filter (λ x, Is_true (keep_segment x)) (split_from "/" 0 rel)).

(** [p.name]: the final segment, [""] when there is none. *)
Definition name (p : Path) : string := List.last (tail p) "".

(** [str(p)]. *)
Definition Path_str (p : Path) : string :=
  let s := root p +:+ str_join "/" (tail p) in
  if String.eqb s "" then "." else s.

(** [p / key] for a [str] key: an absolute key replaces [p]. *)
Definition truediv (p : Path) (key : string) : Path :=
  if String.prefix "/" key then Path_of_str key
  else mkPath (root p) (tail p ++ tail (Path_of_str key)).

(** The child that [iterdir] builds for a listed entry. *)
Definition make_child_relpath (p : Path) (entry : string) : Path :=
  mkPath (root p) (tail p ++ [entry]).

End Pathlib.

Import Pathlib.

Notation "p // key" := (truediv p key) (at level 40, left associativity).

(* ================================================================== *)
(** ** The file system, as the module reads it                         *)
(* ================================================================== *)

(** The operating-system calls behind the [pathlib] and [os] methods the
    module uses, on the [str] form of a path.  They are taken on a tree
    where [realpath] returns (no symlink loop) and entry names are what
    [os.listdir] reports: the raw names, in the order of the directory. *)
Record FileSystem : Type := mkFileSystem {
  realpath : string → string;               (* os.path.realpath, non strict *)
  listdir : string → result (list string);  (* os.listdir *)
  isreg : string → bool;                    (* stat() succeeds and S_ISREG *)
  islnk : string → bool;                    (* lstat() succeeds and S_ISLNK *)
  access_X_OK : string → bool               (* os.access(path, os.X_OK) *)
}.

Section PathMethods.
Variable fs : FileSystem.

(** [p.resolve()]. *)
Definition resolve (p : Path) : Path := Path_of_str (realpath fs (Path_str p)).

(** [p.iterdir()], as the list of children it yields. *)
Definition iterdir (p : Path) : result (list Path) :=
  entries ← listdir fs (Path_str p);
  Ok (map (make_child_relpath p) entries).

(** [p.is_file()]: follows symbolic links. *)
Definition is_file (p : Path) : bool := isreg fs (Path_str p).

(** [p.is_symlink()]. *)
Definition is_symlink (p : Path) : bool := islnk fs (Path_str p).

(** [os.access(p, os.X_OK)]. *)
Definition os_access_X_OK (p : Path) : bool := access_X_OK fs (Path_str p).
End PathMethods.

(* ================================================================== *)
(** ** re: the pattern ["python(\d\.\d+)$"]                          *)
(* ================================================================== *)

Module Re.

(** [\d] on code points below 256. *)
Definition isdigit (c : ascii) : bool :=
  Nat.leb 48 (nat_of_ascii c) && Nat.leb (nat_of_ascii c) 57.

(** A literal at the front of [s]: what follows it. *)
Fixpoint lit (l s : string) : option string :=
  match l, s with
  | EmptyString, _ => Some s
  | String a l', String b s' => if Ascii.eqb a b then lit l' s' else None
  | String _ _, EmptyString => None
  end.

(** [\d]: one digit at the front of [s]. *)
Definition digit (s : string) : option (ascii * string) :=
  match s with
  | String c s' => if isdigit c then Some (c, s') else None
  | EmptyString => None
  end.

(** The longest run of digits at the front of [s], and what follows it.
    [\d+] is greedy and gives back nothing here: after a shorter run
    the next character is a digit, where [$] cannot match. *)
Fixpoint digits (s : string) : string * string :=
  match s with
  | String c s' =>
      if isdigit c
      then let '(ds, rest) := digits s' in (String c ds, rest)
      else (EmptyString, s)
  | EmptyString => (EmptyString, EmptyString)
  end.

(** [$] without [re.MULTILINE]: at the end of the string, and also just
    before a newline that is the last character of the string. *)
Definition at_dollar (s : string) : bool :=
  match s with
  | EmptyString => true
  | String c EmptyString => Ascii.eqb c "010"%char
  | _ => false
  end.

(** [re.match("python(\d\.\d+)$", s)]: [None], or group 1 of the
    match. *)
Definition match_python_version (s : string) : option string :=
  s1 ← lit "python" s;
  '(d, s2) ← digit s1;
  s3 ← lit "." s2;
  let '(ds, s4) := digits s3 in
  if String.eqb ds "" then None
  else if at_dollar s4 then Some (String d ("." +:+ ds))
  else None.

End Re.

(* ================================================================== *)
(** ** The bind module                                                 *)
(* ================================================================== *)

(** [get_houdini_version(hfs_path, only_major_minor)]. *)
Definition get_houdini_version (hfs_path : Path) (only_major_minor : bool)
  : result string :=
  let folder_name := name hfs_path in
  let hfs_version := str_slice_from 3 folder_name in
  components ← str_split "." hfs_version;
  let components :=
    if bool_decide (2 < length components) && only_major_minor
    then list_slice_to 2 components
    else components in
  Ok (str_join "." components).


(** [get_python_version(hfs_path)]. *)
Definition get_python_version (fs : FileSystem) (hfs_path : Path)
  : result string :=
  let python_bin := hfs_path // "python" // "bin" // "python" in
  let python_bin := resolve fs python_bin in
  let result := Re.match_python_version (name python_bin) in
  match result with
  | None =>
      Raise (RuntimeError
               ("Could not determine python version for " +:+ Path_str python_bin))
  | Some group1 => Ok group1
  end.

Definition bin_dir_names : list string := ["bin"; "houdini/sbin"].

(** The body of the inner loop of [get_tools]: each guard that holds is a
    [continue]. *)
Definition visit_child (fs : FileSystem) (found_tools : list string)
    (child : Path) : list string :=
  if negb (is_file fs child) then found_tools
  else if str_contains "-bin" (name child) then found_tools
  else if is_symlink fs child then found_tools
  else if negb (os_access_X_OK fs child) then found_tools
  else found_tools ++ [name child].

(** The outer loop of [get_tools] over the directory names still to scan. *)
Fixpoint scan_dirs (fs : FileSystem) (root : Path) (dirs : list string)
    (found_tools : list string) : result (list string) :=
  match dirs with
  | [] => Ok found_tools
  | bin_dir_name :: dirs' =>
      let bin_path := root // bin_dir_name in
      children ← iterdir fs bin_path;
      scan_dirs fs root dirs' (foldl (visit_child fs) found_tools children)
  end.

(** [get_tools(root)]. *)
Definition get_tools (fs : FileSystem) (root : Path) : result (list string) :=
  found_tools ← scan_dirs fs root bin_dir_names [];
  Ok (sorted found_tools).

(* ================================================================== *)
(** ** rez: the package maker and the repository                       *)
(* ================================================================== *)

Module Rez.

(** The hook functions of the module, which [bind] stores in the
    package without calling them. *)
Inductive Hook : Set := commands | pre_commands | post_commands.

(** The values [bind] assigns to attributes of the package maker. *)
Inductive Value : Set :=
| VStr (s : string)
| VBool (b : bool)
| VStrs (l : list string)
| VVariants (l : list (list string))
| VHook (h : Hook).

(** [PackageMaker(name)]: attributes are set by assignment and kept by
    name. *)
Record PackageMaker : Set := mkPackageMaker {
  pkg_name : string;
  pkg_attrs : gmap string Value
}.

(** [pkg.attr = v]. *)
Definition setattr (pkg : PackageMaker) (attr : string) (v : Value)
  : PackageMaker :=
  mkPackageMaker (pkg_name pkg) (<[attr := v]> (pkg_attrs pkg)).

(** [platform_.symlink(source, link_name)], as the request it makes. *)
Record Symlink : Set := mkSymlink { source : Path; link_name : string }.

(** What [make_package] hands to the repository when the [with] block
    ends: the repository path, the package and the [make_root]
    callback. *)
Record Registration (Variant : Type) : Type := mkRegistration {
  reg_path : string;
  reg_package : PackageMaker;
  reg_make_root : Variant → string → Symlink
}.
Global Arguments mkRegistration {Variant} _ _ _.
Global Arguments reg_path {Variant} _.
Global Arguments reg_package {Variant} _.
Global Arguments reg_make_root {Variant} _ _ _.

End Rez.

Import Rez.

(** [os.path.join(a, b)] on POSIX. *)
Fixpoint ends_with_sep (a : string) : bool :=
  match a with
  | EmptyString => false
  | String c EmptyString => Ascii.eqb c "/"%char
  | String _ a' => ends_with_sep a'
  end.

Definition os_path_join (a b : string) : string :=
  if String.prefix "/" b then b
  else if String.eqb a "" || ends_with_sep a then a +:+ b
  else a +:+ "/" +:+ b.

(** The parsed command line: [opts.hfs] and [opts.major_minor_only]. *)
Record Namespace : Set := mkNamespace {
  hfs : string;
  major_minor_only : bool
}.

Section Bind.
(** rez's variant handles and the host's [system.variant] are opaque. *)
Variable Variant : Type.
Variable VersionRange : Type.
Variable ArgumentParser : Type.
Variable system_variant : list string.

Definition Repository : Type := list (Registration Variant).

(** What the repository reports as installed for a registration. *)
Variable install : Repository → Registration Variant → list Variant.

(** Code that may raise and may register packages. *)
Definition rez (A : Type) : Type := Repository → result A * Repository.

Definition rez_bind {A B} (k : A → rez B) (m : rez A) : rez B :=
  λ repo,
    match m repo with
    | (Ok a, repo') => k a repo'
    | (Raise e, repo') => (Raise e, repo')
    end.

#[global] Instance rez_mbind : MBind rez := @rez_bind.

Definition lift {A} (m : result A) : rez A := λ repo, (m, repo).

(** [with make_package(name, path, make_root=make_root) as pkg: body]:
    an exception of the body leaves the [with] statement before
    anything is installed. *)
Definition make_package (name path : string)
    (make_root : Variant → string → Symlink)
    (body : PackageMaker → result PackageMaker) : rez (list Variant) :=
  λ repo,
    match body (mkPackageMaker name ∅) with
    | Raise e => (Raise e, repo)
    | Ok pkg =>
        let reg := mkRegistration path pkg make_root in
        (Ok (install repo reg), repo ++ [reg])
    end.

(** The nested [make_root(variant, root)] of [bind]; [hfs_path] is its
    free variable. *)
Definition make_root (hfs_path : Path) (variant : Variant) (root : string)
  : Symlink :=
  let link_path := os_path_join root "ext" in
  mkSymlink hfs_path link_path.

(** [bind(path, version_range, opts, parser)]. *)
Definition bind (fs : FileSystem) (path : string)
    (version_range : option VersionRange) (opts : option Namespace)
    (parser : option ArgumentParser) : rez (list Variant) :=
  match opts with
  | None => lift (Raise (AttributeError "'NoneType' object has no attribute 'hfs'"))
  | Some opts =>
      let hfs_path := Path_of_str (hfs opts) in
      let only_major_minor := major_minor_only opts in
      version ← lift (get_houdini_version hfs_path only_major_minor);
      python_version ← lift (get_python_version fs hfs_path);
      let requires := ["~python-" +:+ python_version] in
      make_package "houdinier" path (make_root hfs_path) (λ pkg,
          let pkg := setattr pkg "version" (VStr version) in
          tools ← get_tools fs hfs_path;
          let pkg := setattr pkg "tools" (VStrs tools) in
          let pkg := setattr pkg "commands" (VHook commands) in
          let pkg := setattr pkg "variants" (VVariants [system_variant]) in
          let pkg := setattr pkg "pre_commands" (VHook pre_commands) in
          let pkg := setattr pkg "post_commands" (VHook post_commands) in
          let pkg := setattr pkg "has_plugins" (VBool true) in
          let pkg := setattr pkg "description" (VStr "Base Houdini package") in
          let pkg := setattr pkg "requires" (VStrs requires) in
          Ok pkg)
  end.
End Bind.

(* ================================================================== *)
(** ** The discovery rule and the pattern, in words                    *)
(* ================================================================== *)

(** The rule of [get_tools] as its docstring states it: an executable
    regular file that is not a symbolic link and has no ["-bin"] in its
    name.  [visit_child] is compared with it below. *)
Definition qualifies (fs : FileSystem) (child : Path) : bool :=
  is_file fs child
  && negb (str_contains "-bin" (name child))
  && negb (is_symlink fs child)
  && os_access_X_OK fs child.

(** The names [get_tools] collects, in the order of the two listings. *)
Definition surviving (fs : FileSystem) (children : list Path) : list string :=
  map name (filter (λ child, Is_true (qualifies fs child)) children).

(** [fs'] is [fs] with its directories enumerated in another order:
    the same entries with the same attributes, and the same failures. *)
Definition reenumerates (fs fs' : FileSystem) : Prop :=
  (∀ s, isreg fs' s = isreg fs s) ∧
  (∀ s, islnk fs' s = islnk fs s) ∧
  (∀ s, access_X_OK fs' s = access_X_OK fs s) ∧
  (∀ s, match listdir fs s, listdir fs' s with
        | Ok entries, Ok entries' => entries ≡ₚ entries'
        | Raise e, Raise e' => e = e'
        | _, _ => False
        end).

Fixpoint all_digits (s : string) : bool :=
  match s with
  | EmptyString => true
  | String c s' => Re.isdigit c && all_digits s'
  end.

(** A file name that reads [python], one digit, a dot, one or more digits,
    and nothing more; [v] is the part after [python]. *)
Definition versioned_python (file v : string) : Prop :=
  ∃ (d : ascii) (ds : string),
    Re.isdigit d = true ∧ all_digits ds = true ∧ ds ≠ "" ∧
    v = String d ("." +:+ ds) ∧ file = "python" +:+ v.

Definition newline : string := String "010"%char "".

(* ================================================================== *)
(** ** Small installation trees, for the examples                      *)
(* ================================================================== *)

(** A tree lists its directories with their entries in enumeration order,
    its regular files with their execute permission, and its symbolic
    links with the real path each one resolves to. *)
Record Tree : Set := mkTree {
  tree_dirs : list (string * list string);
  tree_files : list (string * bool);
  tree_links : list (string * string)
}.

Fixpoint assoc {A} (k : string) (l : list (string * A)) : option A :=
  match l with
  | [] => None
  | (k', v) :: l' => if String.eqb k k' then Some v else assoc k l'
  end.

Definition tree_realpath (t : Tree) (s : string) : string :=
  default s (assoc s (tree_links t)).

Definition fs_of_tree (t : Tree) : FileSystem := {|
  realpath := tree_realpath t;
  listdir s :=
    match assoc (tree_realpath t s) (tree_dirs t) with
    | Some entries => Ok entries
    | None =>
        match assoc (tree_realpath t s) (tree_files t) with
        | Some _ => Raise (OSError ENOTDIR s)
        | None => Raise (OSError ENOENT s)
        end
    end;
  isreg s := bool_decide (is_Some (assoc (tree_realpath t s) (tree_files t)));
  islnk s := bool_decide (is_Some (assoc s (tree_links t)));
  access_X_OK s :=
    match assoc (tree_realpath t s) (tree_files t) with
    | Some x => x
    | None => bool_decide (is_Some (assoc (tree_realpath t s) (tree_dirs t)))
    end
|}.

(** [/opt/hfs19.5.493] with the four entries of the exclusion example in
    [bin], an empty [houdini/sbin] and [python3.11]. *)
Definition tree_exclusions : Tree := {|
  tree_dirs :=
    [("/opt/hfs19.5.493/bin", ["readme.txt"; "old_hython"; "hython-bin"; "hython"]);
     ("/opt/hfs19.5.493/houdini/sbin", [])];
  tree_files :=
    [("/opt/hfs19.5.493/bin/hython", true);
     ("/opt/hfs19.5.493/bin/hython-bin", true);
     ("/opt/hfs19.5.493/bin/readme.txt", false);
     ("/opt/hfs19.5.493/python/bin/python3.11", true)];
  tree_links :=
    [("/opt/hfs19.5.493/bin/old_hython", "/opt/hfs19.5.493/bin/hython");
     ("/opt/hfs19.5.493/python/bin/python", "/opt/hfs19.5.493/python/bin/python3.11")]
|}.

(** [/opt/hfs19.5.493] with [mantra] and [hython] in [bin], an empty
    [houdini/sbin] and [python3.9]. *)
Definition tree_valid : Tree := {|
  tree_dirs :=
    [("/opt/hfs19.5.493/bin", ["mantra"; "hython"]);
     ("/opt/hfs19.5.493/houdini/sbin", [])];
  tree_files :=
    [("/opt/hfs19.5.493/bin/hython", true);
     ("/opt/hfs19.5.493/bin/mantra", true);
     ("/opt/hfs19.5.493/python/bin/python3.9", true)];
  tree_links :=
    [("/opt/hfs19.5.493/python/bin/python", "/opt/hfs19.5.493/python/bin/python3.9")]
|}.

(** A tree with tools in both scanned directories, and the same tree
    enumerated in another order. *)
Definition tree_two_dirs : Tree := {|
  tree_dirs :=
    [("/opt/hfs19.5.493/bin", ["mantra"; "hython"; "hython-bin"]);
     ("/opt/hfs19.5.493/houdini/sbin", ["sesinetd"; "hkey"])];
  tree_files :=
    [("/opt/hfs19.5.493/bin/hython", true);
     ("/opt/hfs19.5.493/bin/hython-bin", true);
     ("/opt/hfs19.5.493/bin/mantra", true);
     ("/opt/hfs19.5.493/houdini/sbin/hkey", true);
     ("/opt/hfs19.5.493/houdini/sbin/sesinetd", true)];
  tree_links := []
|}.

Definition tree_two_dirs_reordered : Tree := {|
  tree_dirs :=
    [("/opt/hfs19.5.493/bin", ["hython-bin"; "hython"; "mantra"]);
     ("/opt/hfs19.5.493/houdini/sbin", ["hkey"; "sesinetd"])];
  tree_files := tree_files tree_two_dirs;
  tree_links := tree_links tree_two_dirs
|}.

(** [tree_valid] without its [houdini/sbin] directory. *)
Definition tree_no_sbin : Tree := {|
  tree_dirs := [("/opt/hfs19.5.493/bin", ["mantra"; "hython"])];
  tree_files := tree_files tree_valid;
  tree_links := tree_links tree_valid
|}.

(** A tree with neither an interpreter nor the scanned directories. *)
Definition tree_bare : Tree := {|
  tree_dirs := [("/opt/hfs19.5.493", [])];
  tree_files := [];
  tree_links := []
|}.

(** [tree_valid] where the interpreter's real file name ends in a
    newline. *)
Definition tree_newline : Tree := {|
  tree_dirs := tree_dirs tree_valid;
  tree_files :=
    [("/opt/hfs19.5.493/bin/hython", true);
     ("/opt/hfs19.5.493/bin/mantra", true);
     ("/opt/hfs19.5.493/python/bin/python3.9" +:+ newline, true)];
  tree_links :=
    [("/opt/hfs19.5.493/python/bin/python",
      "/opt/hfs19.5.493/python/bin/python3.9" +:+ newline)]
|}.

Definition hfs_19_5_493 : Path := Path_of_str "/opt/hfs19.5.493".

(* ================================================================== *)
(** ** The environment hooks                                           *)
(* ================================================================== *)

(** [commands], [pre_commands] and [post_commands] run inside rez's rex
    interpreter.  Its environment is reached only through the calls the
    hooks make, so it is a type with those calls as operations:
    [defined(name)], [env.NAME.value()], [env.NAME = value],
    [env.NAME.prepend(value)] and [env.NAME.append(value)]. *)
Module Hooks.
Section Rex.
Context {Env : Type}.
Variable defined : Env → string → bool.
Variable value : Env → string → string.
Variable setenv : Env → string → string → Env.
Variable prepend : Env → string → string → Env.
Variable append : Env → string → string → Env.

(** [commands()]. *)
Definition commands (env : Env) : Env :=
  let env := prepend env "PATH" "$HSB" in
  prepend env "PATH" "$HB".

(** What [pre_commands] reads of an entry [r] of [this.requires]:
    [r.name] and [str(r.range.split()[0])]. *)
Record Requirement : Set := mkRequirement {
  req_name : string;
  req_first_range : string
}.

(** What [pre_commands] reads of [this]: [this.requires] and
    [str(this)]. *)
Record This : Set := mkThis {
  requires : list Requirement;
  this_str : string
}.

(** The [for r in this.requires: ... break ... else: raise] of
    [pre_commands], on the requirements still to visit. *)
Fixpoint export_python_version (this : This) (rs : list Requirement)
    (env : Env) : result Env :=
  match rs with
  | [] =>
      Raise (RuntimeError
               ("Could not determine Python version for " +:+ this_str this))
  | r :: rs' =>
      if String.eqb (req_name r) "python"
      then Ok (setenv env "HOUDINI_PYTHON_VERSION"
                 (str_slice_from 1 (req_first_range r)))
      else export_python_version this rs' env
  end.

(** [pre_commands()]. *)
Definition pre_commands (this : This) (env : Env) : result Env :=
  env ← export_python_version this (requires this) env;
  let env := setenv env "HOUDINI_MAJOR_RELEASE" "${REZ_HOUDINI_MAJOR_VERSION}" in
  let env := setenv env "HOUDINI_MINOR_RELEASE" "${REZ_HOUDINI_MINOR_VERSION}" in
  let env := setenv env "HOUDINI_BUILD_VERSION" "${REZ_HOUDINI_PATCH_VERSION}" in
  let env :=
    setenv env "HOUDINI_VERSION"
      "${HOUDINI_MAJOR_RELEASE}.${HOUDINI_MINOR_RELEASE}.${HOUDINI_BUILD_VERSION}" in
  let env := setenv env "HFS" "{root}/ext" in
  let env := setenv env "H" "${HFS}" in
  let env := setenv env "HB" "${H}/bin" in
  let env := setenv env "HDSO" "${H}/dsolib" in
  let env := setenv env "HH" "${H}/houdini" in
  let env := setenv env "HHC" "${HH}/config" in
  let env := setenv env "HHP" "${HH}/python${HOUDINI_PYTHON_VERSION}libs" in
  let env := setenv env "HT" "${H}/toolkit" in
  let env := setenv env "HSB" "${HH}/sbin" in
  let env := setenv env "TEMP" "/tmp" in
  let env := prepend env "LD_LIBRARY_PATH" "$HDSO" in
  let env :=
    setenv env "HIH" "${HOME}/houdini${HOUDINI_MAJOR_RELEASE}.${HOUDINI_MINOR_RELEASE}" in
  let env := setenv env "HIS" "${HH}" in
  let env := append env "CMAKE_PREFIX_PATH" "${HT}/cmake" in
  Ok env.

Definition special_paths : list string :=
  ["HOUDINI_PATH"; "HOUDINI_DSO_PATH"; "HOUDINI_OTLSCAN_PATH";
   "HOUDINI_SCRIPT_PATH"; "HOUDINI_TOOLBAR_PATH"].

(** The body of the loop of [post_commands]. *)
Definition fix_special_path (env : Env) (special_path : string) : Env :=
  if defined env special_path
  then
    let path_obj := special_path in
    if negb (str_contains "&" (value env path_obj))
    then append env path_obj "&"
    else env
  else env.

(** [post_commands()]. *)
Definition post_commands (env : Env) : Env :=
  foldl fix_special_path env special_paths.
End Rex.
End Hooks.

(** An environment held in a dictionary, for the examples: appending to a
    variable that is set joins with [":"], appending to one that is not
    sets it. *)
Definition dict_defined (env : gmap string string) (k : string) : bool :=
  bool_decide (is_Some (env !! k)).

Definition dict_value (env : gmap string string) (k : string) : string :=
  default "" (env !! k).

Definition dict_setenv (env : gmap string string) (k v : string)
  : gmap string string :=
  <[k := v]> env.

Definition dict_append (env : gmap string string) (k v : string)
  : gmap string string :=
  match env !! k with
  | Some old => <[k := old +:+ ":" +:+ v]> env
  | None => <[k := v]> env
  end.

Definition dict_prepend (env : gmap string string) (k v : string)
  : gmap string string :=
  match env !! k with
  | Some old => <[k := v +:+ ":" +:+ old]> env
  | None => <[k := v]> env
  end.

(** An environment where one special path lacks ["&"], one has it and the
    others are not set. *)
Definition env_example : gmap string string :=
  <["HOUDINI_PATH" := "/studio/houdini"]>
    (<["HOUDINI_DSO_PATH" := "/studio/dso:&"]>
       (<["PATH" := "/usr/bin"]> ∅)).

(** A tree where [hython] is a tool of both scanned directories. *)
Definition tree_duplicate : Tree := {|
  tree_dirs :=
    [("/opt/hfs19.5.493/bin", ["mantra"; "hython"]);
     ("/opt/hfs19.5.493/houdini/sbin", ["hython"])];
  tree_files :=
    [("/opt/hfs19.5.493/bin/hython", true);
     ("/opt/hfs19.5.493/bin/mantra", true);
     ("/opt/hfs19.5.493/houdini/sbin/hython", true)];
  tree_links := []
|}.

(* ================================================================== *)
(** ** Facts about the built-ins                                       *)
(* ================================================================== *)

Section StrFacts.
Implicit Types s a b c r : string.

Lemma str_app_nil b : "" +:+ b = b.
Proof. reflexivity. Qed.

Lemma str_app_cons x a b : String x a +:+ b = String x (a +:+ b).
Proof. reflexivity. Qed.

Lemma str_app_nil_r a : a +:+ "" = a.
Proof.
  induction a as [|x a IH]; [done|].
  by rewrite str_app_cons, IH.
Qed.

Lemma str_app_assoc a b c : (a +:+ b) +:+ c = a +:+ (b +:+ c).
Proof.
  induction a as [|x a IH]; [done|].
  by rewrite !str_app_cons, IH.
Qed.

Lemma str_length_app a b :
  String.length (a +:+ b) = String.length a + String.length b.
Proof.
  induction a as [|x a IH]; [done|].
  rewrite str_app_cons. simpl. by rewrite IH.
Qed.

Lemma str_slice_from_app a r : str_slice_from (String.length a) (a +:+ r) = r.
Proof.
  induction a as [|x a IH]; [by destruct r|].
  rewrite str_app_cons. simpl. done.
Qed.

Lemma str_slice_from_short n s : String.length s ≤ n → str_slice_from n s = "".
Proof.
  revert s. induction n as [|n IH]; intros [|x s]; simpl; try done; try lia.
  intros. apply IH. lia.
Qed.

Lemma split_from_nonempty sep k s : split_from sep k s ≠ [].
Proof.
  revert k. induction s as [|x s IH]; intros k; cbn [split_from]; [done|].
  destruct k; [|apply IH].
  destruct (String.prefix sep (String x s)); [done|].
  by destruct (split_from sep 0 s).
Qed.

Lemma prefix_dot_cons x s :
  String.prefix "." (String x s) = Ascii.eqb x "."%char.
Proof.
  cbn [String.prefix].
  destruct (ascii_dec "." x) as [<-|Hne]; [by destruct s|].
  symmetry. apply Ascii.eqb_neq. congruence.
Qed.

(** One step of [split(".")]. *)
Lemma split_dot_step x s :
  split_from "." 0 (String x s) =
    if Ascii.eqb x "."%char then "" :: split_from "." 0 s
    else match split_from "." 0 s with
         | h :: t => String x h :: t
         | [] => [String x ""]
         end.
Proof. cbn [split_from]. by rewrite prefix_dot_cons. Qed.

Lemma str_contains_dot_step x s :
  str_contains "." (String x s) = Ascii.eqb x "."%char || str_contains "." s.
Proof. cbn [str_contains]. by rewrite prefix_dot_cons. Qed.

(** A string without a dot is its own single component. *)
Lemma split_dot_free a : str_contains "." a = false → split_from "." 0 a = [a].
Proof.
  induction a as [|x a IH]; [done|].
  rewrite str_contains_dot_step, split_dot_step.
  destruct (Ascii.eqb x "."); simpl; [done|].
  intros Ha. by rewrite IH.
Qed.

(** The first dot ends the first component. *)
Lemma split_dot_app a r :
  str_contains "." a = false →
  split_from "." 0 (a +:+ "." +:+ r) = a :: split_from "." 0 r.
Proof.
  induction a as [|x a IH].
  - intros _. rewrite str_app_nil, str_app_cons, str_app_nil.
    by rewrite split_dot_step.
  - rewrite str_contains_dot_step, str_app_cons, split_dot_step.
    destruct (Ascii.eqb x "."); simpl; [done|].
    intros Ha. by rewrite IH.
Qed.

(** Joining the components gives the string back. *)
Lemma join_split_dot s : str_join "." (split_from "." 0 s) = s.
Proof.
  induction s as [|x s IH]; [done|].
  rewrite split_dot_step.
  destruct (Ascii.eqb_spec x "."%char) as [->|_].
  - pose proof (split_from_nonempty "." 0 s) as Hne.
    unfold str_join in *. simpl.
    destruct (split_from "." 0 s) as [|h t]; [done|].
    by rewrite IH.
  - pose proof (split_from_nonempty "." 0 s) as Hne.
    unfold str_join in *.
    destruct (split_from "." 0 s) as [|h t]; [done|].
    destruct t as [|h' t]; simpl in *; by rewrite <- IH.
Qed.
End StrFacts.

(** [get_houdini_version] never takes the [Raise] branch of [split], and
    its value is the join of the components it keeps. *)
Lemma get_houdini_version_eq (p : Path) (flag : bool) :
  get_houdini_version p flag =
    let components := split_from "." 0 (str_slice_from 3 (name p)) in
    Ok (str_join "."
          (if bool_decide (2 < length components) && flag
           then take 2 components else components)).
Proof. reflexivity. Qed.

Lemma get_houdini_version_untruncated (p : Path) :
  get_houdini_version p false = Ok (str_slice_from 3 (name p)).
Proof.
  rewrite get_houdini_version_eq. cbv zeta.
  rewrite andb_false_r. by rewrite join_split_dot.
Qed.

Lemma get_houdini_version_short (p : Path) (flag : bool) :
  length (split_from "." 0 (str_slice_from 3 (name p))) ≤ 2 →
  get_houdini_version p flag = Ok (str_slice_from 3 (name p)).
Proof.
  intros Hlen. rewrite get_houdini_version_eq. cbv zeta.
  rewrite bool_decide_eq_false_2 by lia. simpl.
  by rewrite join_split_dot.
Qed.

(* ================================================================== *)
(** ** The version resolver                                            *)
(* ================================================================== *)

(** C1.  When the final segment of the installation path is a
    three-character prefix followed by [a.b.c], [get_houdini_version]
    returns [a.b] with truncation and [a.b.c] without; when it is followed
    by [a.b], both settings return [a.b]; and whenever the payload has at
    most two components it is returned unchanged under either setting. *)
Theorem get_houdini_version_truncation
    (pre a b c : string) (p3 p2 : Path) (flag : bool) :
  String.length pre = 3 →
  str_contains "." a = false →
  str_contains "." b = false →
  str_contains "." c = false →
  name p3 = pre +:+ a +:+ "." +:+ b +:+ "." +:+ c →
  name p2 = pre +:+ a +:+ "." +:+ b →
  get_houdini_version p3 true = Ok (a +:+ "." +:+ b) ∧
  get_houdini_version p3 false = Ok (a +:+ "." +:+ b +:+ "." +:+ c) ∧
  get_houdini_version p2 flag = Ok (a +:+ "." +:+ b) ∧
  (∀ (q : Path) (components : list string),
     str_split "." (str_slice_from 3 (name q)) = Ok components →
     length components ≤ 2 →
     get_houdini_version q flag = Ok (str_slice_from 3 (name q))).
Proof.
  intros Hpre Ha Hb Hc H3 H2.
  assert (Hp3 : str_slice_from 3 (name p3) = a +:+ "." +:+ b +:+ "." +:+ c).
  { rewrite H3, <- Hpre. apply str_slice_from_app. }
  assert (Hp2 : str_slice_from 3 (name p2) = a +:+ "." +:+ b).
  { rewrite H2, <- Hpre. apply str_slice_from_app. }
  split_and!.
  - rewrite get_houdini_version_eq, Hp3.
    rewrite split_dot_app, split_dot_app, split_dot_free by done.
    reflexivity.
  - by rewrite get_houdini_version_untruncated, Hp3.
  - rewrite get_houdini_version_short, Hp2; [done|].
    rewrite Hp2, split_dot_app, split_dot_free by done. simpl. lia.
  - intros q components Hsplit Hlen. apply get_houdini_version_short.
    change (Ok (split_from "." 0 (str_slice_from 3 (name q))) = Ok components)
      in Hsplit.
    congruence.
Qed.

Lemma get_houdini_version_truncation_witness :
  get_houdini_version (Path_of_str "/opt/hfs19.5.493") true = Ok "19.5" ∧
  get_houdini_version (Path_of_str "/opt/hfs19.5.493") false = Ok "19.5.493" ∧
  get_houdini_version (Path_of_str "/opt/hfs19.5") true = Ok "19.5" ∧
  get_houdini_version (Path_of_str "/opt/hfs21") true = Ok "21".
Proof.
  destruct (get_houdini_version_truncation "hfs" "19" "5" "493"
              (Path_of_str "/opt/hfs19.5.493") (Path_of_str "/opt/hfs19.5") true)
    as (Ht & Hf & H2 & Hshort); [reflexivity..|].
  split_and!; [exact Ht | exact Hf | exact H2 |].
  apply (Hshort (Path_of_str "/opt/hfs21") ["21"]); [reflexivity | simpl; lia].
Defined.

(** C2.  [get_houdini_version] returns a string on every path and under
    either setting: without truncation it is the text after the first
    three characters of the final segment, whatever that text is; with
    truncation it is the first two dot-separated pieces of that text; a
    final segment [<prefix>abc] gives ["abc"]. *)
Theorem get_houdini_version_never_raises (p : Path) (flag : bool) :
  returns (get_houdini_version p flag) ∧
  get_houdini_version p false = Ok (str_slice_from 3 (name p)) ∧
  get_houdini_version p true =
    Ok (str_join "." (take 2 (split_from "." 0 (str_slice_from 3 (name p))))) ∧
  (∀ pre : string,
     String.length pre = 3 → name p = pre +:+ "abc" →
     get_houdini_version p flag = Ok "abc").
Proof.
  split_and!.
  - rewrite get_houdini_version_eq. by eexists.
  - apply get_houdini_version_untruncated.
  - rewrite get_houdini_version_eq. cbv zeta. rewrite andb_true_r.
    case_bool_decide as Hlen; [done|].
    by rewrite take_ge by lia.
  - intros pre Hpre Hname.
    assert (Hpay : str_slice_from 3 (name p) = "abc").
    { rewrite Hname, <- Hpre. apply str_slice_from_app. }
    rewrite get_houdini_version_short, Hpay; [done|].
    rewrite Hpay. simpl. lia.
Qed.

Lemma get_houdini_version_never_raises_witness :
  get_houdini_version (Path_of_str "/opt/sidefx/hfsabc") true = Ok "abc".
Proof.
  destruct (get_houdini_version_never_raises (Path_of_str "/opt/sidefx/hfsabc") true)
    as (_ & _ & _ & Habc).
  apply (Habc "hfs"); reflexivity.
Defined.

(** C9.  The first three characters of the final segment are dropped
    without being looked at: two paths whose final segments agree from
    position 3 on get the same version; a final segment of at most three
    characters gives the empty string; the segment ["19.5.493"] gives
    ["5.493"]. *)
Theorem get_houdini_version_prefix_unchecked (p q : Path) (flag : bool) :
  (str_slice_from 3 (name p) = str_slice_from 3 (name q) →
   get_houdini_version p flag = get_houdini_version q flag) ∧
  (String.length (name p) ≤ 3 → get_houdini_version p flag = Ok "") ∧
  (name p = "19.5.493" → get_houdini_version p flag = Ok "5.493").
Proof.
  split_and!.
  - intros Heq. by rewrite !get_houdini_version_eq, Heq.
  - intros Hlen. rewrite get_houdini_version_eq.
    by rewrite (str_slice_from_short 3 (name p)) by done.
  - intros Hname. rewrite get_houdini_version_eq, Hname. by destruct flag.
Qed.

Lemma get_houdini_version_prefix_unchecked_witness :
  get_houdini_version (Path_of_str "/opt/abc19.5") true
    = get_houdini_version (Path_of_str "/srv/hfs19.5") true ∧
  get_houdini_version (Path_of_str "/opt/hfs") false = Ok "" ∧
  get_houdini_version (Path_of_str "/opt/19.5.493") true = Ok "5.493".
Proof.
  split_and!.
  - apply (get_houdini_version_prefix_unchecked
             (Path_of_str "/opt/abc19.5") (Path_of_str "/srv/hfs19.5") true).
    reflexivity.
  - apply (get_houdini_version_prefix_unchecked
             (Path_of_str "/opt/hfs") (Path_of_str "/") false).
    vm_compute. lia.
  - apply (get_houdini_version_prefix_unchecked
             (Path_of_str "/opt/19.5.493") (Path_of_str "/") true).
    reflexivity.
Defined.

(* ================================================================== *)
(** ** Tool discovery                                                  *)
(* ================================================================== *)

Section ToolFacts.
Variable fs : FileSystem.
Implicit Types (p child : Path) (found : list string).

Lemma name_make_child_relpath p entry : name (make_child_relpath p entry) = entry.
Proof. unfold name, make_child_relpath. simpl. apply last_last. Qed.

(** The four guards of the loop body are the negation of [qualifies]. *)
Lemma visit_child_qualifies found child :
  visit_child fs found child =
    if qualifies fs child then found ++ [name child] else found.
Proof.
  unfold visit_child, qualifies.
  destruct (is_file fs child); simpl; [|done].
  destruct (str_contains "-bin" (name child)); simpl; [done|].
  destruct (is_symlink fs child); simpl; [done|].
  by destruct (os_access_X_OK fs child).
Qed.

Lemma foldl_visit_child children found :
  foldl (visit_child fs) found children = found ++ surviving fs children.
Proof.
  unfold surviving. revert found.
  induction children as [|child children IH]; intros found; simpl.
  - by rewrite app_nil_r.
  - rewrite IH, visit_child_qualifies, filter_cons.
    destruct (decide (Is_true (qualifies fs child))) as [Hq|Hq].
    + apply Is_true_true in Hq. rewrite Hq. simpl. by rewrite <- app_assoc.
    + apply Is_true_false in Hq. by rewrite Hq.
Qed.

(** [get_tools] lists [bin], then [houdini/sbin], and sorts what
    survives. *)
Lemma get_tools_eq root :
  get_tools fs root =
    c1 ← iterdir fs (root // "bin");
    c2 ← iterdir fs (root // "houdini/sbin");
    Ok (sorted (surviving fs c1 ++ surviving fs c2)).
Proof.
  unfold get_tools, bin_dir_names. cbn [scan_dirs].
  destruct (iterdir fs (root // "bin")) as [c1|e]; [|done].
  cbn [mbind result_bind and_then].
  destruct (iterdir fs (root // "houdini/sbin")) as [c2|e]; [|done].
  cbn [mbind result_bind and_then].
  by rewrite !foldl_visit_child.
Qed.

Lemma get_tools_inv root tools :
  get_tools fs root = Ok tools →
  ∃ c1 c2,
    iterdir fs (root // "bin") = Ok c1 ∧
    iterdir fs (root // "houdini/sbin") = Ok c2 ∧
    tools = sorted (surviving fs c1 ++ surviving fs c2).
Proof.
  rewrite get_tools_eq.
  destruct (iterdir fs (root // "bin")) as [c1|e]; [|done].
  destruct (iterdir fs (root // "houdini/sbin")) as [c2|e]; [|done].
  cbn [mbind result_bind and_then]. intros [= <-]. by exists c1, c2.
Qed.

Lemma iterdir_inv p children :
  iterdir fs p = Ok children →
  ∃ entries, listdir fs (Path_str p) = Ok entries ∧
             children = map (make_child_relpath p) entries.
Proof.
  unfold iterdir. destruct (listdir fs (Path_str p)) as [entries|e]; [|done].
  cbn [mbind result_bind and_then]. intros [= <-]. by exists entries.
Qed.

Lemma elem_of_surviving entry children :
  entry ∈ surviving fs children ↔
  ∃ child, child ∈ children ∧ name child = entry ∧ qualifies fs child = true.
Proof.
  unfold surviving. rewrite list_elem_of_fmap. split.
  - intros (child & -> & Hin). apply list_elem_of_filter in Hin as [Hq Hin].
    exists child. split_and!; [done..|]. by apply Is_true_true.
  - intros (child & Hin & <- & Hq). exists child. split; [done|].
    apply list_elem_of_filter. split; [|done]. by apply Is_true_true.
Qed.

Lemma sorted_Permutation found : sorted found ≡ₚ found.
Proof. apply merge_sort_Permutation. Qed.

Lemma sorted_StronglySorted found : StronglySorted String.le (sorted found).
Proof. apply StronglySorted_merge_sort; apply _. Qed.

(** Two enumerations of the same names sort to the same list. *)
Lemma sorted_order_independent found found' :
  found ≡ₚ found' → sorted found = sorted found'.
Proof.
  intros Hperm. apply (Sorted_unique String.le).
  - apply Sorted_merge_sort; apply _.
  - apply Sorted_merge_sort; apply _.
  - by rewrite !sorted_Permutation.
Qed.
End ToolFacts.

Lemma qualifies_true_iff (fs : FileSystem) (child : Path) :
  qualifies fs child = true ↔
  is_file fs child = true ∧ str_contains "-bin" (name child) = false ∧
  is_symlink fs child = false ∧ os_access_X_OK fs child = true.
Proof.
  unfold qualifies. rewrite !andb_true_iff, !negb_true_iff. tauto.
Qed.

Lemma surviving_Permutation (fs : FileSystem) (children children' : list Path) :
  children ≡ₚ children' → surviving fs children ≡ₚ surviving fs children'.
Proof. unfold surviving. by intros ->. Qed.

Lemma surviving_cons_true (fs : FileSystem) (child : Path) (children : list Path) :
  qualifies fs child = true →
  surviving fs (child :: children) = name child :: surviving fs children.
Proof.
  intros Hq. unfold surviving. rewrite filter_cons, Hq.
  by rewrite decide_True by done.
Qed.

Lemma surviving_cons_false (fs : FileSystem) (child : Path) (children : list Path) :
  qualifies fs child = false →
  surviving fs (child :: children) = surviving fs children.
Proof.
  intros Hq. unfold surviving. rewrite filter_cons, Hq.
  by rewrite decide_False by (by intros []).
Qed.

Lemma surviving_children (fs : FileSystem) (p : Path) (entries : list string)
    (entry : string) :
  entry ∈ surviving fs (map (make_child_relpath p) entries) ↔
  entry ∈ entries ∧ qualifies fs (make_child_relpath p entry) = true.
Proof.
  rewrite elem_of_surviving. split.
  - intros (child & Hin & Hname & Hq).
    apply list_elem_of_fmap in Hin as (e & -> & Hin).
    rewrite name_make_child_relpath in Hname. by subst e.
  - intros [Hin Hq]. exists (make_child_relpath p entry). split_and!.
    + apply list_elem_of_fmap. by exists entry.
    + apply name_make_child_relpath.
    + done.
Qed.

(** C4.  [get_tools] lists an entry of a scanned directory exactly when it
    is a regular file, has no ["-bin"] in its name, is not a symbolic link
    and is executable.  When [bin] holds [hython] (an executable file),
    [hython-bin], [old_hython] (a symbolic link) and [readme.txt] (not
    executable), in any order, and [houdini/sbin] is empty, the result is
    [["hython"]]. *)
Theorem get_tools_inclusion (fs : FileSystem) (root : Path) :
  (∀ (tools : list string) (entry : string),
     get_tools fs root = Ok tools →
     (entry ∈ tools ↔
      ∃ (dir : string) (entries : list string),
        dir ∈ bin_dir_names ∧
        listdir fs (Path_str (root // dir)) = Ok entries ∧
        entry ∈ entries ∧
        is_file fs (make_child_relpath (root // dir) entry) = true ∧
        str_contains "-bin" entry = false ∧
        is_symlink fs (make_child_relpath (root // dir) entry) = false ∧
        os_access_X_OK fs (make_child_relpath (root // dir) entry) = true)) ∧
  (∀ entries : list string,
     listdir fs (Path_str (root // "bin")) = Ok entries →
     entries ≡ₚ ["hython"; "hython-bin"; "old_hython"; "readme.txt"] →
     listdir fs (Path_str (root // "houdini/sbin")) = Ok [] →
     is_file fs (make_child_relpath (root // "bin") "hython") = true →
     is_symlink fs (make_child_relpath (root // "bin") "hython") = false →
     os_access_X_OK fs (make_child_relpath (root // "bin") "hython") = true →
     is_symlink fs (make_child_relpath (root // "bin") "old_hython") = true →
     os_access_X_OK fs (make_child_relpath (root // "bin") "readme.txt") = false →
     get_tools fs root = Ok ["hython"]).
Proof.
  split.
  - intros tools entry Htools.
    apply get_tools_inv in Htools as (c1 & c2 & H1 & H2 & ->).
    apply iterdir_inv in H1 as (e1 & Hl1 & ->).
    apply iterdir_inv in H2 as (e2 & Hl2 & ->).
    rewrite sorted_Permutation, elem_of_app, !surviving_children.
    rewrite !qualifies_true_iff, !name_make_child_relpath.
    split.
    + intros [[Hin (?&?&?&?)]|[Hin (?&?&?&?)]].
      * exists "bin", e1. split_and!; try done. set_solver.
      * exists "houdini/sbin", e2. split_and!; try done. set_solver.
    + intros (dir & entries & Hdir & Hl & Hin & Hq).
      unfold bin_dir_names in Hdir.
      apply elem_of_cons in Hdir as [->|Hdir].
      * left. assert (entries = e1) as -> by congruence. done.
      * apply list_elem_of_singleton in Hdir as ->.
        right. assert (entries = e2) as -> by congruence. done.
  - intros entries Hbin Hperm Hsbin Hfile Hlnk Hexec Hold Hreadme.
    rewrite get_tools_eq. unfold iterdir. rewrite Hbin, Hsbin.
    cbn [mbind result_bind and_then map]. f_equal.
    change ["hython"] with (sorted ["hython"]).
    apply sorted_order_independent.
    change (surviving fs []) with (@nil string). rewrite app_nil_r.
    rewrite (surviving_Permutation fs _ _ (fmap_Permutation _ _ _ Hperm)).
    cbn [fmap list_fmap].
    rewrite (surviving_cons_true fs); last first.
    { apply qualifies_true_iff. by rewrite name_make_child_relpath. }
    rewrite (surviving_cons_false fs); last first.
    { unfold qualifies. rewrite name_make_child_relpath.
      change (str_contains "-bin" "hython-bin") with true.
      by rewrite andb_false_r. }
    rewrite (surviving_cons_false fs); last first.
    { unfold qualifies. rewrite Hold. by rewrite andb_false_r. }
    rewrite (surviving_cons_false fs); last first.
    { unfold qualifies. rewrite Hreadme. by rewrite andb_false_r. }
    by rewrite name_make_child_relpath.
Qed.

Lemma get_tools_inclusion_witness :
  get_tools (fs_of_tree tree_exclusions) hfs_19_5_493 = Ok ["hython"] ∧
  ("hython" ∈ ["hython"] ↔
   ∃ (dir : string) (entries : list string),
     dir ∈ bin_dir_names ∧
     listdir (fs_of_tree tree_exclusions) (Path_str (hfs_19_5_493 // dir))
       = Ok entries ∧
     "hython" ∈ entries ∧
     is_file (fs_of_tree tree_exclusions)
       (make_child_relpath (hfs_19_5_493 // dir) "hython") = true ∧
     str_contains "-bin" "hython" = false ∧
     is_symlink (fs_of_tree tree_exclusions)
       (make_child_relpath (hfs_19_5_493 // dir) "hython") = false ∧
     os_access_X_OK (fs_of_tree tree_exclusions)
       (make_child_relpath (hfs_19_5_493 // dir) "hython") = true).
Proof.
  destruct (get_tools_inclusion (fs_of_tree tree_exclusions) hfs_19_5_493)
    as [Hiff Hex].
  assert (Hrun : get_tools (fs_of_tree tree_exclusions) hfs_19_5_493 = Ok ["hython"]).
  { apply (Hex ["readme.txt"; "old_hython"; "hython-bin"; "hython"]);
      try reflexivity.
    exact (Permutation_rev ["readme.txt"; "old_hython"; "hython-bin"; "hython"]). }
  split; [exact Hrun|]. exact (Hiff ["hython"] "hython" Hrun).
Defined.

Lemma qualifies_reenumerates (fs fs' : FileSystem) (child : Path) :
  reenumerates fs fs' → qualifies fs' child = qualifies fs child.
Proof.
  intros (Hreg & Hlnk & Hexec & _).
  unfold qualifies, is_file, is_symlink, os_access_X_OK.
  by rewrite Hreg, Hlnk, Hexec.
Qed.

Lemma surviving_reenumerates (fs fs' : FileSystem) (children : list Path) :
  reenumerates fs fs' → surviving fs' children = surviving fs children.
Proof.
  intros Hre. induction children as [|child children IH]; [done|].
  destruct (qualifies fs child) eqn:Hq.
  - rewrite !surviving_cons_true, IH; [done..|].
    by rewrite (qualifies_reenumerates fs fs').
  - rewrite !surviving_cons_false, IH; [done..|].
    by rewrite (qualifies_reenumerates fs fs').
Qed.

Lemma iterdir_reenumerates (fs fs' : FileSystem) (p : Path) (children : list Path) :
  reenumerates fs fs' →
  iterdir fs p = Ok children →
  ∃ children', iterdir fs' p = Ok children' ∧ children ≡ₚ children'.
Proof.
  intros (_ & _ & _ & Hdir) Hit.
  apply iterdir_inv in Hit as (entries & Hl & ->).
  specialize (Hdir (Path_str p)). rewrite Hl in Hdir. unfold iterdir.
  destruct (listdir fs' (Path_str p)) as [entries'|e]; [|done].
  exists (map (make_child_relpath p) entries'). split; [done|].
  by apply fmap_Permutation.
Qed.

(** C5.  The list [get_tools] returns holds exactly the surviving names of
    [bin] and of [houdini/sbin] together, in ascending order of [str];
    and it is the same list on a file system that enumerates the same
    directory entries in another order. *)
Theorem get_tools_sorted_merge (fs fs' : FileSystem) (root : Path)
    (tools : list string) :
  get_tools fs root = Ok tools →
  (∃ c1 c2 : list Path,
     iterdir fs (root // "bin") = Ok c1 ∧
     iterdir fs (root // "houdini/sbin") = Ok c2 ∧
     tools ≡ₚ surviving fs c1 ++ surviving fs c2) ∧
  StronglySorted String.le tools ∧
  (reenumerates fs fs' → get_tools fs' root = Ok tools).
Proof.
  intros Htools.
  apply get_tools_inv in Htools as (c1 & c2 & H1 & H2 & ->).
  split_and!.
  - exists c1, c2. split_and!; [done..|]. apply sorted_Permutation.
  - apply sorted_StronglySorted.
  - intros Hre.
    destruct (iterdir_reenumerates fs fs' _ _ Hre H1) as (c1' & H1' & Hp1).
    destruct (iterdir_reenumerates fs fs' _ _ Hre H2) as (c2' & H2' & Hp2).
    rewrite get_tools_eq, H1', H2'. cbn [mbind result_bind and_then].
    f_equal. apply sorted_order_independent.
    rewrite !(surviving_reenumerates fs fs') by done.
    by rewrite (surviving_Permutation fs c1 c1'), (surviving_Permutation fs c2 c2').
Qed.

Lemma tree_two_dirs_reenumerated :
  reenumerates (fs_of_tree tree_two_dirs) (fs_of_tree tree_two_dirs_reordered).
Proof.
  split_and!; intros s; try reflexivity.
  - cbn.
    repeat match goal with
           | |- context [String.eqb s ?k] => destruct (String.eqb s k)
           end; reflexivity.
  - cbn.
    destruct (String.eqb s "/opt/hfs19.5.493/bin").
    { exact (Permutation_rev ["mantra"; "hython"; "hython-bin"]). }
    destruct (String.eqb s "/opt/hfs19.5.493/houdini/sbin").
    { exact (Permutation_rev ["sesinetd"; "hkey"]). }
    repeat match goal with
           | |- context [String.eqb s ?k] => destruct (String.eqb s k)
           end; reflexivity.
Qed.

Lemma get_tools_sorted_merge_witness :
  get_tools (fs_of_tree tree_two_dirs) hfs_19_5_493
    = Ok ["hkey"; "hython"; "mantra"; "sesinetd"] ∧
  StronglySorted String.le ["hkey"; "hython"; "mantra"; "sesinetd"] ∧
  get_tools (fs_of_tree tree_two_dirs_reordered) hfs_19_5_493
    = Ok ["hkey"; "hython"; "mantra"; "sesinetd"].
Proof.
  assert (Hrun : get_tools (fs_of_tree tree_two_dirs) hfs_19_5_493
                 = Ok ["hkey"; "hython"; "mantra"; "sesinetd"]) by reflexivity.
  destruct (get_tools_sorted_merge (fs_of_tree tree_two_dirs)
              (fs_of_tree tree_two_dirs_reordered) hfs_19_5_493 _ Hrun)
    as (_ & Hsorted & Hsame).
  split_and!; [exact Hrun | exact Hsorted |].
  apply Hsame, tree_two_dirs_reenumerated.
Defined.

(** C6.  When [bin] cannot be listed, [get_tools] raises the error of that
    listing; when [bin] can be listed and [houdini/sbin] cannot, it raises
    the error of the second listing and the entries of [bin] are lost.
    For a directory that does not exist the error is
    [OSError ENOENT] (FileNotFoundError). *)
Theorem get_tools_missing_directory (fs : FileSystem) (root : Path) (e : exn) :
  (listdir fs (Path_str (root // "bin")) = Raise e →
   get_tools fs root = Raise e) ∧
  (∀ entries : list string,
     listdir fs (Path_str (root // "bin")) = Ok entries →
     listdir fs (Path_str (root // "houdini/sbin")) = Raise e →
     get_tools fs root = Raise e).
Proof.
  split.
  - intros Hbin. rewrite get_tools_eq. unfold iterdir. by rewrite Hbin.
  - intros entries Hbin Hsbin. rewrite get_tools_eq. unfold iterdir.
    by rewrite Hbin, Hsbin.
Qed.

Lemma get_tools_missing_directory_witness :
  get_tools (fs_of_tree tree_bare) hfs_19_5_493
    = Raise (OSError ENOENT "/opt/hfs19.5.493/bin") ∧
  surviving (fs_of_tree tree_no_sbin)
    (map (make_child_relpath (hfs_19_5_493 // "bin")) ["mantra"; "hython"])
    = ["mantra"; "hython"] ∧
  get_tools (fs_of_tree tree_no_sbin) hfs_19_5_493
    = Raise (OSError ENOENT "/opt/hfs19.5.493/houdini/sbin").
Proof.
  split_and!.
  - apply (get_tools_missing_directory (fs_of_tree tree_bare) hfs_19_5_493).
    reflexivity.
  - reflexivity.
  - destruct (get_tools_missing_directory (fs_of_tree tree_no_sbin) hfs_19_5_493
                (OSError ENOENT "/opt/hfs19.5.493/houdini/sbin"))
      as [_ Hsecond].
    apply (Hsecond ["mantra"; "hython"]); reflexivity.
Defined.

(* ================================================================== *)
(** ** The interpreter-version resolver                                *)
(* ================================================================== *)

Section ReFacts.
Import Re.

Lemma lit_app l r : lit l (l +:+ r) = Some r.
Proof.
  induction l as [|a l IH]; [by destruct r|].
  rewrite str_app_cons. cbn [lit]. by rewrite Ascii.eqb_refl.
Qed.

Lemma lit_inv l s r : lit l s = Some r → s = l +:+ r.
Proof.
  revert s. induction l as [|a l IH]; intros s.
  - cbn [lit]. by intros [= <-].
  - destruct s as [|b s]; cbn [lit]; [done|].
    destruct (Ascii.eqb_spec a b) as [->|]; [|done].
    intros Hl. rewrite str_app_cons. f_equal. by apply IH.
Qed.

Lemma at_dollar_inv r : at_dollar r = true → r = "" ∨ r = newline.
Proof.
  destruct r as [|c [|c' r]]; cbn [at_dollar]; [by left| |done].
  intros ->%Ascii.eqb_eq. by right.
Qed.

Lemma digits_inv s ds rest :
  digits s = (ds, rest) → s = ds +:+ rest ∧ all_digits ds = true.
Proof.
  revert ds rest. induction s as [|c s IH]; intros ds rest; cbn [digits].
  - by intros [= <- <-].
  - destruct (isdigit c) eqn:Hc; [|by intros [= <- <-]].
    destruct (digits s) as [ds' rest'].
    intros [= <- <-]. destruct (IH ds' rest' eq_refl) as [-> Hds].
    split; [done|]. cbn [all_digits]. by rewrite Hc, Hds.
Qed.

Lemma digits_app ds rest :
  all_digits ds = true → at_dollar rest = true → digits (ds +:+ rest) = (ds, rest).
Proof.
  intros Hds Hrest. induction ds as [|c ds IH].
  - rewrite str_app_nil. by destruct (at_dollar_inv rest Hrest) as [->| ->].
  - cbn [all_digits] in Hds. apply andb_true_iff in Hds as [Hc Hds].
    rewrite str_app_cons. cbn [digits]. by rewrite Hc, IH.
Qed.

(** The pattern, one step of the match after the other. *)
Lemma match_python_version_eq s :
  match_python_version s =
    match lit "python" s with
    | None => None
    | Some s1 =>
        match digit s1 with
        | None => None
        | Some (d, s2) =>
            match lit "." s2 with
            | None => None
            | Some s3 =>
                if String.eqb (digits s3).1 "" then None
                else if at_dollar (digits s3).2
                     then Some (String d ("." +:+ (digits s3).1))
                     else None
            end
        end
    end.
Proof.
  unfold match_python_version.
  destruct (lit "python" s) as [s1|]; [|done]. cbn [mbind option_bind].
  destruct (digit s1) as [[d s2]|]; [|done]. cbn [mbind option_bind].
  destruct (lit "." s2) as [s3|]; [|done]. cbn [mbind option_bind].
  by destruct (digits s3).
Qed.

(** What the pattern accepts: a versioned interpreter name, alone or
    followed by one newline. *)
Lemma match_python_version_spec s v :
  match_python_version s = Some v ↔
  versioned_python s v ∨ ∃ s', s = s' +:+ newline ∧ versioned_python s' v.
Proof.
  rewrite match_python_version_eq. split.
  - destruct (lit "python" s) as [s1|] eqn:H1; [|done].
    apply lit_inv in H1 as ->.
    destruct s1 as [|d s2]; [done|]. cbn [digit].
    destruct (isdigit d) eqn:Hd; [|done].
    destruct (lit "." s2) as [s3|] eqn:H3; [|done].
    apply lit_inv in H3 as ->.
    destruct (digits s3) as [ds s4] eqn:Hds. cbn [fst snd].
    apply digits_inv in Hds as [-> Hall].
    destruct (String.eqb_spec ds "") as [|Hne]; [done|].
    destruct (at_dollar s4) eqn:H4; [|done].
    intros [= <-].
    destruct (at_dollar_inv s4 H4) as [->| ->].
    + left. exists d, ds. split_and!; try done.
      by rewrite str_app_nil_r.
    + right. exists ("python" +:+ String d ("." +:+ ds)). split.
      * by rewrite (str_app_assoc "python"), (str_app_cons d), (str_app_assoc ".").
      * by exists d, ds.
  - intros [Hv|(s' & -> & Hv)];
      destruct Hv as (d & ds & Hd & Hall & Hne & -> & ->).
    + rewrite lit_app. cbn [digit]. rewrite Hd, lit_app.
      assert (digits ds = (ds, "")) as ->.
      { rewrite <- (str_app_nil_r ds) at 1. by apply digits_app. }
      cbn [fst snd at_dollar].
      by destruct (String.eqb_spec ds "").
    + rewrite (str_app_assoc "python"), lit_app, (str_app_cons d). cbn [digit].
      rewrite Hd, (str_app_assoc "."), lit_app, digits_app by done.
      cbn [fst snd]. by destruct (String.eqb_spec ds "").
Qed.
End ReFacts.

Section InterpreterFacts.
Variable fs : FileSystem.
Variable hfs_path : Path.

Let python_bin : Path := resolve fs (hfs_path // "python" // "bin" // "python").

Lemma get_python_version_eq :
  get_python_version fs hfs_path =
    match Re.match_python_version (name python_bin) with
    | Some group1 => Ok group1
    | None =>
        Raise (RuntimeError
                 ("Could not determine python version for " +:+ Path_str python_bin))
    end.
Proof.
  unfold get_python_version, python_bin.
  by destruct (Re.match_python_version _).
Qed.

(** The resolver returns [v] exactly on a versioned interpreter name,
    alone or followed by one newline. *)
Lemma get_python_version_returns_iff v :
  get_python_version fs hfs_path = Ok v ↔
  versioned_python (name python_bin) v ∨
  ∃ file, name python_bin = file +:+ newline ∧ versioned_python file v.
Proof.
  rewrite get_python_version_eq, <- match_python_version_spec.
  destruct (Re.match_python_version (name python_bin)); naive_solver.
Qed.

(** Whatever it raises is the [RuntimeError] that names the resolved
    path. *)
Lemma get_python_version_raises e :
  get_python_version fs hfs_path = Raise e →
  e = RuntimeError
        ("Could not determine python version for " +:+ Path_str python_bin).
Proof.
  rewrite get_python_version_eq.
  destruct (Re.match_python_version (name python_bin)); [done|].
  by intros [= <-].
Qed.

End InterpreterFacts.

(** C3, at the input where the code leaves it.  In [tree_newline] the
    interpreter resolves to a file named [python3.9] followed by a
    newline.  That name is not a versioned interpreter name, yet
    [get_python_version] returns ["3.9"] instead of raising: the [$] of the
    pattern also matches before a final newline. *)
Theorem get_python_version_trailing_newline :
  name (resolve (fs_of_tree tree_newline)
          (hfs_19_5_493 // "python" // "bin" // "python"))
    = "python3.9" +:+ newline ∧
  (∀ v, ¬ versioned_python ("python3.9" +:+ newline) v) ∧
  get_python_version (fs_of_tree tree_newline) hfs_19_5_493 = Ok "3.9".
Proof.
  split_and!; [reflexivity| |reflexivity].
  intros v (d & ds & _ & Hall & _ & -> & Hname).
  vm_compute in Hname. injection Hname as <- <-.
  by vm_compute in Hall.
Qed.


(* ================================================================== *)
(** ** The bind entry point                                            *)
(* ================================================================== *)

Section BindFacts.
Context {Variant VersionRange ArgumentParser : Type}.
Variable system_variant : list string.
Variable install : Repository Variant → Registration Variant → list Variant.
Variable fs : FileSystem.
Variable path : string.
Variable version_range : option VersionRange.
Variable parser : option ArgumentParser.

Abbreviation run opts :=
  (bind Variant VersionRange ArgumentParser system_variant install
     fs path version_range (Some opts) parser).

(** An exception of the interpreter resolver leaves [bind] as it is, before
    the package maker exists. *)
Lemma bind_python_raises (opts : Namespace) (repo : Repository Variant) (e : exn) :
  get_python_version fs (Path_of_str (hfs opts)) = Raise e →
  run opts repo = (Raise e, repo).
Proof.
  intros Hpy. unfold bind.
  rewrite get_houdini_version_eq. cbv zeta.
  unfold mbind, rez_mbind, rez_bind, lift. by rewrite Hpy.
Qed.

(** An exception of the tool scan leaves the [with] block, and [bind], as
    it is; nothing is registered. *)
Lemma bind_tools_raises (opts : Namespace) (repo : Repository Variant)
    (python_version : string) (e : exn) :
  get_python_version fs (Path_of_str (hfs opts)) = Ok python_version →
  get_tools fs (Path_of_str (hfs opts)) = Raise e →
  run opts repo = (Raise e, repo).
Proof.
  intros Hpy Htools. unfold bind.
  rewrite get_houdini_version_eq. cbv zeta.
  unfold mbind, rez_mbind, rez_bind, lift. rewrite Hpy.
  unfold make_package. by rewrite Htools.
Qed.

(** When both resolvers return, one package is registered; these are its
    name and the three attributes derived from the installation. *)
Lemma bind_registers (opts : Namespace) (repo : Repository Variant)
    (version python_version : string) (tools : list string) :
  get_houdini_version (Path_of_str (hfs opts)) (major_minor_only opts) = Ok version →
  get_python_version fs (Path_of_str (hfs opts)) = Ok python_version →
  get_tools fs (Path_of_str (hfs opts)) = Ok tools →
  ∃ pkg : PackageMaker,
    let reg := mkRegistration path pkg (make_root Variant (Path_of_str (hfs opts))) in
    run opts repo = (Ok (install repo reg), repo ++ [reg]) ∧
    pkg_name pkg = "houdinier" ∧
    pkg_attrs pkg !! "version" = Some (VStr version) ∧
    pkg_attrs pkg !! "tools" = Some (VStrs tools) ∧
    pkg_attrs pkg !! "requires" = Some (VStrs ["~python-" +:+ python_version]).
Proof.
  intros Hver Hpy Htools. unfold bind.
  unfold mbind, rez_mbind, rez_bind, lift. rewrite Hver, Hpy.
  unfold make_package. rewrite Htools.
  cbn [mbind result_bind and_then].
  eexists. split; [reflexivity|].
  split; [reflexivity|].
  unfold setattr; cbn [pkg_attrs pkg_name].
  split_and!.
  - by rewrite !(lookup_insert_ne _ _ "version") by done; rewrite lookup_insert_eq.
  - by rewrite !(lookup_insert_ne _ _ "tools") by done; rewrite lookup_insert_eq.
  - by rewrite lookup_insert_eq.
Qed.
(** C7.  [bind] resolves the interpreter version before it scans for
    tools: an exception of [get_python_version] is the outcome of [bind],
    also when [get_tools] would raise as well; an exception of
    [get_tools] is the outcome when the interpreter resolved.  Either way
    the exception is the resolver's own and the repository is unchanged. *)
Theorem bind_interpreter_first (opts : Namespace) (repo : Repository Variant)
    (e e' : exn) :
  (get_python_version fs (Path_of_str (hfs opts)) = Raise e →
   run opts repo = (Raise e, repo)) ∧
  (get_python_version fs (Path_of_str (hfs opts)) = Raise e →
   get_tools fs (Path_of_str (hfs opts)) = Raise e' →
   run opts repo = (Raise e, repo)) ∧
  (∀ python_version : string,
     get_python_version fs (Path_of_str (hfs opts)) = Ok python_version →
     get_tools fs (Path_of_str (hfs opts)) = Raise e' →
     run opts repo = (Raise e', repo)).
Proof.
  split_and!.
  - apply bind_python_raises.
  - intros Hpy _. by apply bind_python_raises.
  - intros python_version. apply bind_tools_raises.
Qed.

(** C8.  On an installation whose root is named [<prefix>v], whose
    interpreter resolves to [python] followed by [a.b] (one digit, a dot,
    digits) and whose two directories can be listed, [bind] registers one
    package: its version is [v], or the first two components of [v] when
    truncation is asked for; its tools are the sorted surviving names; its
    requirements are the single weak requirement [~python-a.b], which in
    rez's syntax admits any patch release of [a.b]. *)
Theorem bind_descriptor (opts : Namespace) (repo : Repository Variant)
    (pre v python_version : string) (c1 c2 : list Path) :
  String.length pre = 3 →
  name (Path_of_str (hfs opts)) = pre +:+ v →
  versioned_python
    (name (resolve fs (Path_of_str (hfs opts) // "python" // "bin" // "python")))
    python_version →
  iterdir fs (Path_of_str (hfs opts) // "bin") = Ok c1 →
  iterdir fs (Path_of_str (hfs opts) // "houdini/sbin") = Ok c2 →
  ∃ pkg : PackageMaker,
    let reg := mkRegistration path pkg (make_root Variant (Path_of_str (hfs opts))) in
    run opts repo = (Ok (install repo reg), repo ++ [reg]) ∧
    pkg_attrs pkg !! "version" =
      Some (VStr (if major_minor_only opts
                  then str_join "." (take 2 (split_from "." 0 v))
                  else v)) ∧
    pkg_attrs pkg !! "tools" = Some (VStrs (sorted (surviving fs c1 ++ surviving fs c2))) ∧
    pkg_attrs pkg !! "requires" = Some (VStrs ["~python-" +:+ python_version]).
Proof.
  intros Hpre Hname Hpy H1 H2.
  assert (Hpay : str_slice_from 3 (name (Path_of_str (hfs opts))) = v).
  { rewrite Hname, <- Hpre. apply str_slice_from_app. }
  destruct (bind_registers opts repo
              (if major_minor_only opts
               then str_join "." (take 2 (split_from "." 0 v)) else v)
              python_version (sorted (surviving fs c1 ++ surviving fs c2)))
    as (pkg & Hrun & _ & Hv & Ht & Hr).
  - destruct (get_houdini_version_never_raises (Path_of_str (hfs opts)) true)
      as (_ & Hfalse & Htrue & _).
    destruct (major_minor_only opts); [by rewrite Htrue, Hpay|by rewrite Hfalse, Hpay].
  - apply get_python_version_returns_iff. by left.
  - by rewrite get_tools_eq, H1, H2.
  - by exists pkg.
Qed.

(** C10.  Whatever its arguments, [bind] either raises and registers
    nothing, or registers one package, and that package is named
    ["houdinier"]: the name is the literal of the call to
    [make_package]. *)
Theorem bind_package_name (opts : option Namespace) (repo : Repository Variant) :
  let outcome :=
    bind Variant VersionRange ArgumentParser system_variant install
      fs path version_range opts parser repo in
  (∃ e, outcome = (Raise e, repo)) ∨
  (∃ reg, outcome = (Ok (install repo reg), repo ++ [reg]) ∧
          pkg_name (reg_package reg) = "houdinier").
Proof.
  destruct opts as [opts|]; [|left; by eexists].
  cbv zeta.
  destruct (get_python_version fs (Path_of_str (hfs opts))) as [pv|e] eqn:Hpy.
  - destruct (get_tools fs (Path_of_str (hfs opts))) as [tools|e] eqn:Htools.
    + destruct (bind_registers opts repo _ pv tools
                  (get_houdini_version_eq _ _) Hpy Htools)
        as (pkg & Hrun & Hname & _).
      right. eexists. split; [exact Hrun|exact Hname].
    + left. exists e. by apply (bind_tools_raises opts repo pv).
  - left. exists e. by apply bind_python_raises.
Qed.
End BindFacts.

Lemma bind_interpreter_first_witness :
  get_tools (fs_of_tree tree_bare) hfs_19_5_493
    = Raise (OSError ENOENT "/opt/hfs19.5.493/bin") ∧
  bind string unit unit ["platform-linux"] (λ _ _, []) (fs_of_tree tree_bare)
    "/packages" None (Some (mkNamespace "/opt/hfs19.5.493" false)) None []
    = (Raise (RuntimeError
         "Could not determine python version for /opt/hfs19.5.493/python/bin/python"),
       []) ∧
  bind string unit unit ["platform-linux"] (λ _ _, []) (fs_of_tree tree_no_sbin)
    "/packages" None (Some (mkNamespace "/opt/hfs19.5.493" false)) None []
    = (Raise (OSError ENOENT "/opt/hfs19.5.493/houdini/sbin"), []).
Proof.
  split_and!; [reflexivity| |].
  - destruct (bind_interpreter_first (Variant:=string) (VersionRange:=unit)
                (ArgumentParser:=unit) ["platform-linux"] (λ _ _, [])
                (fs_of_tree tree_bare) "/packages" None None
                (mkNamespace "/opt/hfs19.5.493" false) []
                (RuntimeError
                   "Could not determine python version for /opt/hfs19.5.493/python/bin/python")
                (OSError ENOENT "/opt/hfs19.5.493/bin"))
      as (_ & Hboth & _).
    apply Hboth; reflexivity.
  - destruct (bind_interpreter_first (Variant:=string) (VersionRange:=unit)
                (ArgumentParser:=unit) ["platform-linux"] (λ _ _, [])
                (fs_of_tree tree_no_sbin) "/packages" None None
                (mkNamespace "/opt/hfs19.5.493" false) []
                (RuntimeError "")
                (OSError ENOENT "/opt/hfs19.5.493/houdini/sbin"))
      as (_ & _ & Htools).
    apply (Htools "3.9"); reflexivity.
Defined.

Lemma bind_descriptor_witness :
  ∃ pkg : PackageMaker,
    bind string unit unit ["platform-linux"] (λ _ _, ["houdinier-19.5"])
      (fs_of_tree tree_valid) "/packages" None
      (Some (mkNamespace "/opt/hfs19.5.493" true)) None []
    = (Ok ["houdinier-19.5"],
       [mkRegistration "/packages" pkg (make_root string hfs_19_5_493)]) ∧
    pkg_attrs pkg !! "version" = Some (VStr "19.5") ∧
    pkg_attrs pkg !! "tools" = Some (VStrs ["hython"; "mantra"]) ∧
    pkg_attrs pkg !! "requires" = Some (VStrs ["~python-3.9"]).
Proof.
  apply (bind_descriptor (Variant:=string) (VersionRange:=unit)
           (ArgumentParser:=unit) ["platform-linux"] (λ _ _, ["houdinier-19.5"])
           (fs_of_tree tree_valid) "/packages" None None
           (mkNamespace "/opt/hfs19.5.493" true) []
           "hfs" "19.5.493" "3.9"
           (map (make_child_relpath (hfs_19_5_493 // "bin")) ["mantra"; "hython"])
           []).
  - reflexivity.
  - reflexivity.
  - exists "3"%char, "9". split_and!; try reflexivity. discriminate.
  - reflexivity.
  - reflexivity.
Defined.

(* ================================================================== *)
(** ** More on the version resolver                                    *)
(* ================================================================== *)

Section SplitFacts.
Implicit Types (s a b : string) (c x : ascii).

Lemma prefix_char_cons c x s :
  String.prefix (String c "") (String x s) = Ascii.eqb x c.
Proof.
  cbn [String.prefix].
  destruct (ascii_dec c x) as [<-|Hne].
  - rewrite Ascii.eqb_refl. by destruct s.
  - symmetry. apply Ascii.eqb_neq. congruence.
Qed.

(** One step of [split] on a one-character separator. *)
Lemma split_char_step c x s :
  split_from (String c "") 0 (String x s) =
    if Ascii.eqb x c then "" :: split_from (String c "") 0 s
    else match split_from (String c "") 0 s with
         | h :: t => String x h :: t
         | [] => [String x ""]
         end.
Proof. cbn [split_from]. by rewrite prefix_char_cons. Qed.

(** Splitting [a + c + b] is splitting [a], then splitting [b]. *)
Lemma split_char_app c a b :
  split_from (String c "") 0 (a +:+ String c b) =
    split_from (String c "") 0 a ++ split_from (String c "") 0 b.
Proof.
  induction a as [|x a IH].
  - rewrite str_app_nil, split_char_step, Ascii.eqb_refl. done.
  - rewrite str_app_cons, !split_char_step, IH.
    destruct (Ascii.eqb x c); [done|].
    pose proof (split_from_nonempty (String c "") 0 a) as Hne.
    by destruct (split_from (String c "") 0 a).
Qed.

Lemma str_contains_dot_nil : str_contains "." "" = false.
Proof. reflexivity. Qed.

(** The components [split(".")] returns hold no dot. *)
Lemma split_dot_components s :
  Forall (λ comp, str_contains "." comp = false) (split_from "." 0 s).
Proof.
  induction s as [|x s IH]; [by repeat constructor|].
  rewrite split_dot_step.
  destruct (Ascii.eqb x ".") eqn:Hx; [by constructor|].
  pose proof (split_from_nonempty "." 0 s) as Hne.
  destruct (split_from "." 0 s) as [|h t]; [done|].
  inversion IH as [|? ? Hh Ht]; subst. constructor; [|done].
  by rewrite str_contains_dot_step, Hx.
Qed.

(** Joining dot-free components and splitting again gives them back. *)
Lemma split_join_dot (comps : list string) :
  comps ≠ [] →
  Forall (λ comp, str_contains "." comp = false) comps →
  split_from "." 0 (str_join "." comps) = comps.
Proof.
  induction comps as [|a comps IH]; [done|]. intros _ Hall.
  inversion Hall as [|? ? Ha Hcomps]; subst.
  destruct comps as [|b comps].
  - by apply split_dot_free.
  - change (str_join "." (a :: b :: comps))
      with (a +:+ "." +:+ str_join "." (b :: comps)).
    rewrite split_dot_app by done. by rewrite IH.
Qed.

Lemma prefix_app a b : String.prefix a (a +:+ b) = true.
Proof.
  induction a as [|x a IH]; [by destruct b|].
  rewrite str_app_cons. cbn [String.prefix].
  by destruct (ascii_dec x x).
Qed.

Lemma prefix_refl a : String.prefix a a = true.
Proof. rewrite <- (str_app_nil_r a) at 2. apply prefix_app. Qed.

Lemma join_take_2_prefix (comps : list string) :
  String.prefix (str_join "." (take 2 comps)) (str_join "." comps) = true.
Proof.
  destruct comps as [|a [|b [|c comps]]]; try apply prefix_refl.
  change (str_join "." (take 2 (a :: b :: c :: comps)))
    with (a +:+ "." +:+ b).
  change (str_join "." (a :: b :: c :: comps))
    with (a +:+ "." +:+ b +:+ "." +:+ str_join "." (c :: comps)).
  rewrite <- (str_app_assoc "." b), <- (str_app_assoc a ("." +:+ b)).
  apply prefix_app.
Qed.
End SplitFacts.

(** X1.  For a final segment made of a three-character prefix and any
    number of dot-free components joined by dots, [get_houdini_version]
    returns the first two components joined when truncation is asked for
    and all of them joined when it is not. *)
Theorem get_houdini_version_components
    (pre : string) (comps : list string) (p : Path) :
  String.length pre = 3 →
  comps ≠ [] →
  Forall (λ comp, str_contains "." comp = false) comps →
  name p = pre +:+ str_join "." comps →
  get_houdini_version p true = Ok (str_join "." (take 2 comps)) ∧
  get_houdini_version p false = Ok (str_join "." comps).
Proof.
  intros Hpre Hne Hall Hname.
  assert (Hpay : str_slice_from 3 (name p) = str_join "." comps).
  { rewrite Hname, <- Hpre. apply str_slice_from_app. }
  split.
  - rewrite get_houdini_version_eq, Hpay, split_join_dot by done.
    cbv zeta. rewrite andb_true_r.
    case_bool_decide as Hlen; [done|]. by rewrite take_ge by lia.
  - by rewrite get_houdini_version_untruncated, Hpay.
Qed.

Lemma get_houdini_version_components_witness :
  get_houdini_version (Path_of_str "/opt/hfs20.5.370.1") true = Ok "20.5" ∧
  get_houdini_version (Path_of_str "/opt/hfs20.5.370.1") false = Ok "20.5.370.1".
Proof.
  apply (get_houdini_version_components "hfs" ["20"; "5"; "370"; "1"]
           (Path_of_str "/opt/hfs20.5.370.1")).
  - reflexivity.
  - discriminate.
  - repeat constructor.
  - reflexivity.
Defined.

Lemma get_houdini_version_truncated (p : Path) :
  get_houdini_version p true =
    Ok (str_join "." (take 2 (split_from "." 0 (str_slice_from 3 (name p))))).
Proof.
  rewrite get_houdini_version_eq. cbv zeta. rewrite andb_true_r.
  case_bool_decide as Hlen; [done|]. by rewrite take_ge by lia.
Qed.

(** X2.  On every path the truncated version is a prefix of the
    untruncated one. *)
Theorem get_houdini_version_truncated_prefix (p : Path) :
  ∃ truncated full : string,
    get_houdini_version p true = Ok truncated ∧
    get_houdini_version p false = Ok full ∧
    String.prefix truncated full = true.
Proof.
  eexists _, _.
  split_and!; [apply get_houdini_version_truncated
              |apply get_houdini_version_untruncated|].
  rewrite <- (join_split_dot (str_slice_from 3 (name p))) at 2.
  apply join_take_2_prefix.
Qed.

(** X3.  A truncated version has at most two components, and truncation
    has nothing left to remove from it: a directory named after it gets
    the same version under either setting. *)
Theorem get_houdini_version_truncation_stable (p : Path) (truncated : string) :
  get_houdini_version p true = Ok truncated →
  length (split_from "." 0 truncated) ≤ 2 ∧
  (∀ (q : Path) (flag : bool),
     str_slice_from 3 (name q) = truncated →
     get_houdini_version q flag = Ok truncated).
Proof.
  intros Hrun.
  rewrite get_houdini_version_truncated in Hrun. injection Hrun as <-.
  set (comps := split_from "." 0 (str_slice_from 3 (name p))).
  assert (Hsplit : split_from "." 0 (str_join "." (take 2 comps)) = take 2 comps).
  { apply split_join_dot.
    - pose proof (split_from_nonempty "." 0 (str_slice_from 3 (name p))) as Hne.
      fold comps in Hne. by destruct comps.
    - apply Forall_take, split_dot_components. }
  assert (Hlen : length (split_from "." 0 (str_join "." (take 2 comps))) ≤ 2).
  { rewrite Hsplit, length_take. lia. }
  split; [exact Hlen|].
  intros q flag Hq. rewrite get_houdini_version_short; rewrite Hq; done.
Qed.

Lemma get_houdini_version_truncation_stable_witness :
  length (split_from "." 0 "19.5") ≤ 2 ∧
  get_houdini_version (Path_of_str "/opt/hfs19.5") true = Ok "19.5".
Proof.
  destruct (get_houdini_version_truncation_stable
              (Path_of_str "/opt/hfs19.5.493") "19.5" eq_refl) as [Hlen Hstable].
  split; [exact Hlen|].
  apply (Hstable (Path_of_str "/opt/hfs19.5") true). reflexivity.
Defined.

Section PathFacts.
Implicit Types (s r : string).

Lemma splitroot_eq s :
  splitroot s =
    match s with
    | String c1 r1 =>
        if Ascii.eqb c1 "/"
        then match r1 with
             | String c2 r2 =>
                 if Ascii.eqb c2 "/"
                 then match r2 with
                      | String c3 r3 =>
                          if Ascii.eqb c3 "/" then ("/", r1) else ("//", r2)
                      | EmptyString => ("//", r2)
                      end
                 else ("/", r1)
             | EmptyString => ("/", r1)
             end
        else ("", s)
    | EmptyString => ("", s)
    end.
Proof.
  destruct s as [|c1 r1]; [done|].
  destruct (Ascii.eqb_spec c1 "/") as [->|H1].
  2:{ destruct c1 as [[] [] [] [] [] [] [] []]; try reflexivity. by destruct H1. }
  destruct r1 as [|c2 r2]; [done|].
  destruct (Ascii.eqb_spec c2 "/") as [->|H2].
  2:{ destruct c2 as [[] [] [] [] [] [] [] []]; try reflexivity. by destruct H2. }
  destruct r2 as [|c3 r3]; [done|].
  destruct (Ascii.eqb_spec c3 "/") as [->|H3]; [done|].
  destruct c3 as [[] [] [] [] [] [] [] []]; try reflexivity. by destruct H3.
Qed.

Lemma filter_keep_segment_slash r :
  filter (λ x, Is_true (keep_segment x)) (split_from "/" 0 (String "/" r)) =
  filter (λ x, Is_true (keep_segment x)) (split_from "/" 0 r).
Proof. by rewrite split_char_step, Ascii.eqb_refl. Qed.

(** The segments of [Path(s)] are the kept pieces of [s]: the root only
    accounts for empty pieces. *)
Lemma tail_Path_of_str s :
  tail (Path_of_str s) =
    filter (λ x, Is_true (keep_segment x)) (split_from "/" 0 s).
Proof.
  unfold Path_of_str. rewrite splitroot_eq.
  destruct s as [|c1 r1]; [done|].
  destruct (Ascii.eqb_spec c1 "/") as [->|H1]; [|done].
  destruct r1 as [|c2 r2]; [done|].
  destruct (Ascii.eqb_spec c2 "/") as [->|H2];
    [|cbn [tail]; by rewrite filter_keep_segment_slash].
  destruct r2 as [|c3 r3]; [done|].
  destruct (Ascii.eqb_spec c3 "/") as [->|H3]; cbn [tail].
  - by rewrite (filter_keep_segment_slash (String "/" (String "/" r3))).
  - by rewrite !filter_keep_segment_slash.
Qed.

Lemma tail_Path_of_str_trailing_slash s :
  tail (Path_of_str (s +:+ "/")) = tail (Path_of_str s).
Proof.
  rewrite !tail_Path_of_str.
  rewrite (split_char_app "/" s ""), filter_app.
  change (filter _ (split_from "/" 0 "")) with (@nil string).
  by rewrite app_nil_r.
Qed.
End PathFacts.

(** X4.  A slash at the end of the installation path does not change the
    version [bind] derives from it. *)
Theorem get_houdini_version_trailing_slash (s : string) (flag : bool) :
  get_houdini_version (Path_of_str (s +:+ "/")) flag =
  get_houdini_version (Path_of_str s) flag.
Proof.
  rewrite !get_houdini_version_eq. unfold name.
  by rewrite tail_Path_of_str_trailing_slash.
Qed.

(* ================================================================== *)
(** ** More on the interpreter resolver                                *)
(* ================================================================== *)

Section NameFacts.
Implicit Types (s seg : string).



(** The name of a path string that ends in a slash and a plain segment
    is that segment. *)
Lemma name_Path_of_str_snoc s seg :
  split_from "/" 0 seg = [seg] →
  keep_segment seg = true →
  name (Path_of_str (s +:+ String "/" seg)) = seg.
Proof.
  intros Hseg Hkeep. unfold name.
  rewrite tail_Path_of_str, split_char_app, Hseg, filter_app.
  rewrite (filter_cons _ seg), decide_True by by rewrite Hkeep.
  rewrite filter_nil. apply last_last.
Qed.
End NameFacts.

(** X5.  [get_python_version] returns [v] exactly when the resolved file
    name is [python] followed by [v], where [v] is one digit, a dot and
    one or more digits, or is such a name followed by a single newline. *)
Theorem get_python_version_accepts (fs : FileSystem) (hfs_path : Path)
    (v : string) :
  get_python_version fs hfs_path = Ok v ↔
  versioned_python
    (name (resolve fs (hfs_path // "python" // "bin" // "python"))) v ∨
  ∃ file : string,
    name (resolve fs (hfs_path // "python" // "bin" // "python"))
      = file +:+ newline ∧
    versioned_python file v.
Proof. apply get_python_version_returns_iff. Qed.



(* ================================================================== *)
(** ** More on tool discovery                                          *)
(* ================================================================== *)

(** X7.  [get_tools] removes no duplicates: each name occurs in the result
    as many times as it survives in [bin] plus as many times as it
    survives in [houdini/sbin]. *)
Theorem get_tools_keeps_duplicates (fs : FileSystem) (root : Path)
    (tools : list string) (c1 c2 : list Path) (tool : string) :
  get_tools fs root = Ok tools →
  iterdir fs (root // "bin") = Ok c1 →
  iterdir fs (root // "houdini/sbin") = Ok c2 →
  length tools = length (surviving fs c1) + length (surviving fs c2) ∧
  length (filter (λ x, x = tool) tools) =
    length (filter (λ x, x = tool) (surviving fs c1)) +
    length (filter (λ x, x = tool) (surviving fs c2)).
Proof.
  intros Htools H1 H2.
  apply get_tools_inv in Htools as (c1' & c2' & H1' & H2' & ->).
  assert (c1' = c1) as -> by congruence.
  assert (c2' = c2) as -> by congruence.
  rewrite !sorted_Permutation, filter_app, !length_app. done.
Qed.

Lemma get_tools_keeps_duplicates_witness :
  get_tools (fs_of_tree tree_duplicate) hfs_19_5_493
    = Ok ["hython"; "hython"; "mantra"] ∧
  length (filter (λ x, x = "hython") ["hython"; "hython"; "mantra"]) = 2.
Proof.
  split; [reflexivity|].
  destruct (get_tools_keeps_duplicates (fs_of_tree tree_duplicate) hfs_19_5_493
              ["hython"; "hython"; "mantra"]
              (map (make_child_relpath (hfs_19_5_493 // "bin")) ["mantra"; "hython"])
              (map (make_child_relpath (hfs_19_5_493 // "houdini/sbin")) ["hython"])
              "hython" eq_refl eq_refl eq_refl) as [_ Hcount].
  exact Hcount.
Defined.


(* ================================================================== *)
(** ** More on the bind entry point                                    *)
(* ================================================================== *)

Lemma ends_with_sep_inv (a : string) :
  ends_with_sep a = true → ∃ a', a = a' +:+ "/".
Proof.
  induction a as [|c a IH]; [done|]. cbn [ends_with_sep].
  destruct a as [|c' a].
  - intros ->%Ascii.eqb_eq. by exists "".
  - intros Ha. destruct (IH Ha) as [a' ->]. by exists (String c a').
Qed.

(** The link [make_root] asks for is [ext], directly or under a
    directory. *)
Lemma os_path_join_ext (root : string) :
  os_path_join root "ext" = "ext" ∨
  ∃ dir, os_path_join root "ext" = dir +:+ String "/" "ext".
Proof.
  unfold os_path_join. change (String.prefix "/" "ext") with false. cbv iota.
  destruct (String.eqb_spec root "") as [->|_]; [by left|].
  cbn [orb]. destruct (ends_with_sep root) eqn:Hsep.
  - apply ends_with_sep_inv in Hsep as [dir ->]. right. exists dir.
    by rewrite str_app_assoc.
  - right. by exists root.
Qed.

Section MoreBindFacts.
Context {Variant VersionRange ArgumentParser : Type}.
Variable system_variant : list string.
Variable install : Repository Variant → Registration Variant → list Variant.
Variable fs : FileSystem.
Variable path : string.
Variable version_range : option VersionRange.
Variable parser : option ArgumentParser.

Abbreviation call opts :=
  (bind Variant VersionRange ArgumentParser system_variant install
     fs path version_range opts parser).

(** A successful [bind] is one where both resolvers returned and the
    package of [bind_registers] was appended. *)
Lemma bind_success_inv (opts : Namespace) (repo repo' : Repository Variant)
    (variants : list Variant) :
  call (Some opts) repo = (Ok variants, repo') →
  ∃ (python_version : string) (tools : list string) (pkg : PackageMaker),
    get_python_version fs (Path_of_str (hfs opts)) = Ok python_version ∧
    get_tools fs (Path_of_str (hfs opts)) = Ok tools ∧
    repo' = repo ++ [mkRegistration path pkg
                       (make_root Variant (Path_of_str (hfs opts)))] ∧
    pkg_attrs pkg !! "tools" = Some (VStrs tools) ∧
    pkg_attrs pkg !! "requires" = Some (VStrs ["~python-" +:+ python_version]).
Proof.
  intros Hrun.
  destruct (get_python_version fs (Path_of_str (hfs opts))) as [pv|e] eqn:Hpy.
  2:{ rewrite (bind_python_raises _ _ _ _ _ _ opts repo e Hpy) in Hrun.
      discriminate. }
  destruct (get_tools fs (Path_of_str (hfs opts))) as [tools|e] eqn:Htools.
  2:{ rewrite (bind_tools_raises _ _ _ _ _ _ opts repo pv e Hpy Htools) in Hrun.
      discriminate. }
  destruct (bind_registers system_variant install fs path version_range parser
              opts repo _ pv tools (get_houdini_version_eq _ _) Hpy Htools)
    as (pkg & Hreg & _ & _ & Ht & Hr).
  cbv zeta in Hreg. rewrite Hreg in Hrun. injection Hrun as _ <-.
  by exists pv, tools, pkg.
Qed.


(** X10.  Every package [bind] registers is well formed: its only
    requirement is [~python-] followed by one digit, a dot and one or
    more digits, and its tools are in ascending order, none of them with
    ["-bin"] in its name. *)
Theorem bind_registered_package (opts : Namespace)
    (repo repo' : Repository Variant) (variants : list Variant) :
  call (Some opts) repo = (Ok variants, repo') →
  ∃ (reg : Registration Variant) (d : ascii) (ds : string) (tools : list string),
    repo' = repo ++ [reg] ∧
    Re.isdigit d = true ∧ all_digits ds = true ∧ ds ≠ "" ∧
    pkg_attrs (reg_package reg) !! "requires"
      = Some (VStrs ["~python-" +:+ String d ("." +:+ ds)]) ∧
    pkg_attrs (reg_package reg) !! "tools" = Some (VStrs tools) ∧
    StronglySorted String.le tools ∧
    (∀ tool, tool ∈ tools → str_contains "-bin" tool = false).
Proof.
  intros Hrun.
  apply bind_success_inv in Hrun as (pv & tools & pkg & Hpy & Htools & -> & Ht & Hr).
  assert (Hshape : ∃ d ds, Re.isdigit d = true ∧ all_digits ds = true ∧ ds ≠ "" ∧
                           pv = String d ("." +:+ ds)).
  { apply get_python_version_returns_iff in Hpy
      as [(d & ds & ? & ? & ? & ? & _)|(file & _ & d & ds & ? & ? & ? & ? & _)];
      by exists d, ds. }
  destruct Hshape as (d & ds & Hd & Hds & Hne & ->).
  eexists _, d, ds, tools. split_and!; try done.
  - apply get_tools_inv in Htools as (c1 & c2 & _ & _ & ->).
    apply sorted_StronglySorted.
  - intros tool Hin.
    apply get_tools_inv in Htools as (c1 & c2 & _ & _ & ->).
    rewrite sorted_Permutation, elem_of_app, !elem_of_surviving in Hin.
    destruct Hin as [(child & _ & <- & Hq)|(child & _ & <- & Hq)];
      by apply qualifies_true_iff in Hq as (_ & Hbin & _).
Qed.

(** X11.  The [make_root] callback of a registered package asks, for
    every variant and every package root, for one symbolic link: it points
    to the installation path given to [bind], and its final segment is
    [ext]. *)
Theorem bind_make_root_link (opts : Namespace)
    (repo repo' : Repository Variant) (variants : list Variant) :
  call (Some opts) repo = (Ok variants, repo') →
  ∃ reg : Registration Variant,
    repo' = repo ++ [reg] ∧
    ∀ (variant : Variant) (root : string),
      source (reg_make_root reg variant root) = Path_of_str (hfs opts) ∧
      link_name (reg_make_root reg variant root) = os_path_join root "ext" ∧
      name (Path_of_str (link_name (reg_make_root reg variant root))) = "ext".
Proof.
  intros Hrun.
  apply bind_success_inv in Hrun as (pv & tools & pkg & _ & _ & -> & _).
  eexists. split; [reflexivity|].
  intros variant root. cbn [reg_make_root make_root source link_name].
  split_and!; [done..|].
  destruct (os_path_join_ext root) as [->|[dir ->]]; [done|].
  by apply name_Path_of_str_snoc.
Qed.
End MoreBindFacts.

Lemma bind_registered_package_witness :
  ∃ (reg : Registration string) (tools : list string),
    (bind string unit unit ["platform-linux"] (λ _ _, ["houdinier-19.5.493"])
       (fs_of_tree tree_newline) "/packages" None
       (Some (mkNamespace "/opt/hfs19.5.493" false)) None []).2 = [reg] ∧
    pkg_attrs (reg_package reg) !! "requires" = Some (VStrs ["~python-3.9"]) ∧
    pkg_attrs (reg_package reg) !! "tools" = Some (VStrs tools) ∧
    StronglySorted String.le tools.
Proof.
  destruct (bind_registered_package (Variant:=string) (VersionRange:=unit)
              (ArgumentParser:=unit) ["platform-linux"]
              (λ _ _, ["houdinier-19.5.493"]) (fs_of_tree tree_newline)
              "/packages" None None (mkNamespace "/opt/hfs19.5.493" false)
              [] _ ["houdinier-19.5.493"] eq_refl)
    as (reg & d & ds & tools & Hrepo & _ & _ & _ & Hreq & Htools & Hsorted & _).
  injection Hrepo as <-.
  eexists _, tools. split_and!; [reflexivity| |exact Htools|exact Hsorted].
  reflexivity.
Defined.

Lemma bind_make_root_link_witness :
  ∃ reg : Registration string,
    (bind string unit unit ["platform-linux"] (λ _ _, ["houdinier-19.5.493"])
       (fs_of_tree tree_valid) "/packages" None
       (Some (mkNamespace "/opt/hfs19.5.493" false)) None []).2 = [reg] ∧
    source (reg_make_root reg "platform-linux" "/packages/houdinier/19.5.493")
      = hfs_19_5_493 ∧
    link_name (reg_make_root reg "platform-linux" "/packages/houdinier/19.5.493")
      = "/packages/houdinier/19.5.493/ext".
Proof.
  destruct (bind_make_root_link (Variant:=string) (VersionRange:=unit)
              (ArgumentParser:=unit) ["platform-linux"]
              (λ _ _, ["houdinier-19.5.493"]) (fs_of_tree tree_valid)
              "/packages" None None (mkNamespace "/opt/hfs19.5.493" false)
              [] _ ["houdinier-19.5.493"] eq_refl)
    as (reg & Hrepo & Hlink).
  destruct (Hlink "platform-linux" "/packages/houdinier/19.5.493")
    as (Hsource & Hname & _).
  exists reg. split_and!; [exact Hrepo|exact Hsource|exact Hname].
Defined.

(* ================================================================== *)
(** ** The environment hooks                                           *)
(* ================================================================== *)

Section PostCommandsFacts.
Context {Env : Type}.
Variable defined : Env → string → bool.
Variable value : Env → string → string.
Variable append : Env → string → string → Env.

Abbreviation fix_path := (Hooks.fix_special_path defined value append).
Abbreviation post := (Hooks.post_commands defined value append).

Lemma foldl_fix_settled (ks : list string) (env : Env) :
  (∀ k, k ∈ ks → defined env k = true → str_contains "&" (value env k) = true) →
  foldl fix_path env ks = env.
Proof.
  induction ks as [|a ks IH]; [done|]. intros Hall. cbn [foldl].
  assert (Ha : fix_path env a = env).
  { unfold Hooks.fix_special_path.
    destruct (defined env a) eqn:Hd; [|done].
    by rewrite (Hall a) by (done || apply list_elem_of_here). }
  rewrite Ha. apply IH. intros k Hk. apply Hall. by apply list_elem_of_further.
Qed.

(** X12.  When every special path that is defined already holds ["&"],
    and in particular when none is defined, [post_commands] leaves the
    environment as it is. *)
Theorem post_commands_settled (env : Env) :
  (∀ k, k ∈ Hooks.special_paths → defined env k = true →
        str_contains "&" (value env k) = true) →
  Hooks.post_commands defined value append env = env.
Proof. apply foldl_fix_settled. Qed.

(** What the hooks need of [append]: it defines the variable it is given,
    leaves every other variable alone, and what it appended can be found
    in the new value. *)
Hypothesis append_defined : ∀ env k v, defined (append env k v) k = true.
Hypothesis append_defined_other :
  ∀ env k v k', k' ≠ k → defined (append env k v) k' = defined env k'.
Hypothesis append_value_other :
  ∀ env k v k', k' ≠ k → value (append env k v) k' = value env k'.
Hypothesis append_value :
  ∀ env k, str_contains "&" (value (append env k "&") k) = true.

Lemma fix_path_defined (env : Env) (a k : string) :
  defined (fix_path env a) k = defined env k.
Proof.
  unfold Hooks.fix_special_path.
  destruct (defined env a) eqn:Hd; [|done].
  destruct (str_contains "&" (value env a)); [done|]. cbn [negb].
  destruct (decide (k = a)) as [->|Hne].
  - by rewrite append_defined.
  - by apply append_defined_other.
Qed.

Lemma fix_path_value (env : Env) (a k : string) :
  k ≠ a ∨ defined env k = false ∨ str_contains "&" (value env k) = true →
  value (fix_path env a) k = value env k.
Proof.
  intros Hk. unfold Hooks.fix_special_path.
  destruct (defined env a) eqn:Hd; [|done].
  destruct (str_contains "&" (value env a)) eqn:Hamp; [done|]. cbn [negb].
  apply append_value_other. intros ->. destruct Hk as [?|[?|?]]; congruence.
Qed.

Lemma foldl_fix_defined (ks : list string) (env : Env) (k : string) :
  defined (foldl fix_path env ks) k = defined env k.
Proof.
  revert env. induction ks as [|a ks IH]; intros env; [done|].
  cbn [foldl]. by rewrite IH, fix_path_defined.
Qed.

Lemma foldl_fix_value (ks : list string) (env : Env) (k : string) :
  k ∉ ks ∨ defined env k = false ∨ str_contains "&" (value env k) = true →
  value (foldl fix_path env ks) k = value env k.
Proof.
  revert env. induction ks as [|a ks IH]; intros env Hk; [done|].
  cbn [foldl].
  assert (Hstep : value (fix_path env a) k = value env k).
  { apply fix_path_value. destruct Hk as [Hk|Hk]; [left|by right].
    intros ->. apply Hk, list_elem_of_here. }
  rewrite IH, Hstep; [done|].
  rewrite fix_path_defined, Hstep.
  destruct Hk as [Hk|Hk]; [left|by right].
  intros Hin. by apply Hk, list_elem_of_further.
Qed.

Lemma foldl_fix_ampersand (ks : list string) (env : Env) (k : string) :
  k ∈ ks → defined env k = true →
  str_contains "&" (value (foldl fix_path env ks) k) = true.
Proof.
  revert env. induction ks as [|a ks IH]; intros env Hin Hd.
  { by apply elem_of_nil in Hin. }
  cbn [foldl]. destruct (decide (k = a)) as [->|Hne].
  - assert (Hnow : str_contains "&" (value (fix_path env a) a) = true).
    { unfold Hooks.fix_special_path. rewrite Hd.
      destruct (str_contains "&" (value env a)) eqn:Hamp; [done|].
      apply append_value. }
    rewrite foldl_fix_value; [done|]. by right; right.
  - apply IH; [|by rewrite fix_path_defined].
    by apply elem_of_cons in Hin as [?|?].
Qed.

(** X13.  [post_commands] neither defines nor removes a variable, and it
    changes the value of none but the special paths that are defined and
    lack ["&"]. *)
Theorem post_commands_frame (env : Env) (k : string) :
  defined (Hooks.post_commands defined value append env) k = defined env k ∧
  (k ∉ Hooks.special_paths ∨ defined env k = false ∨
   str_contains "&" (value env k) = true →
   value (Hooks.post_commands defined value append env) k = value env k).
Proof.
  split; [apply foldl_fix_defined|apply foldl_fix_value].
Qed.

(** X14.  After [post_commands] every special path that was defined is
    still defined and its value holds ["&"]. *)
Theorem post_commands_ampersand (env : Env) (k : string) :
  k ∈ Hooks.special_paths →
  defined env k = true →
  defined (Hooks.post_commands defined value append env) k = true ∧
  str_contains "&" (value (Hooks.post_commands defined value append env) k) = true.
Proof.
  intros Hin Hd. unfold Hooks.post_commands. split.
  - by rewrite foldl_fix_defined.
  - by apply foldl_fix_ampersand.
Qed.

(** X15.  Running [post_commands] a second time changes nothing. *)
Theorem post_commands_idempotent (env : Env) :
  Hooks.post_commands defined value append
    (Hooks.post_commands defined value append env)
  = Hooks.post_commands defined value append env.
Proof.
  apply foldl_fix_settled. intros k Hin Hd. unfold Hooks.post_commands in *.
  apply foldl_fix_ampersand; [done|].
  by rewrite <- (foldl_fix_defined Hooks.special_paths env k).
Qed.
End PostCommandsFacts.

(** The dictionary environment meets what is asked of [append]. *)
Lemma dict_append_defined (env : gmap string string) (k v : string) :
  dict_defined (dict_append env k v) k = true.
Proof.
  unfold dict_defined, dict_append. apply bool_decide_eq_true.
  destruct (env !! k); rewrite lookup_insert_eq; by eexists.
Qed.

Lemma dict_append_lookup_other (env : gmap string string) (k v k' : string) :
  k' ≠ k → dict_append env k v !! k' = env !! k'.
Proof.
  intros Hne. unfold dict_append.
  destruct (env !! k); by rewrite lookup_insert_ne.
Qed.

Lemma dict_append_defined_other (env : gmap string string) (k v k' : string) :
  k' ≠ k → dict_defined (dict_append env k v) k' = dict_defined env k'.
Proof. intros Hne. unfold dict_defined. by rewrite dict_append_lookup_other. Qed.

Lemma dict_append_value_other (env : gmap string string) (k v k' : string) :
  k' ≠ k → dict_value (dict_append env k v) k' = dict_value env k'.
Proof. intros Hne. unfold dict_value. by rewrite dict_append_lookup_other. Qed.

Lemma str_contains_app_r (sub a b : string) :
  str_contains sub b = true → str_contains sub (a +:+ b) = true.
Proof.
  intros Hb. induction a as [|x a IH]; [done|].
  rewrite str_app_cons. cbn [str_contains]. rewrite IH. apply orb_true_r.
Qed.

Lemma dict_append_value (env : gmap string string) (k : string) :
  str_contains "&" (dict_value (dict_append env k "&") k) = true.
Proof.
  unfold dict_value, dict_append.
  destruct (env !! k) as [old|]; rewrite lookup_insert_eq; [|done].
  cbn [default]. by apply str_contains_app_r.
Qed.

Lemma elem_of_special_paths (k : string) :
  k ∈ Hooks.special_paths →
  k = "HOUDINI_PATH" ∨ k = "HOUDINI_DSO_PATH" ∨ k = "HOUDINI_OTLSCAN_PATH" ∨
  k = "HOUDINI_SCRIPT_PATH" ∨ k = "HOUDINI_TOOLBAR_PATH".
Proof.
  unfold Hooks.special_paths. rewrite !elem_of_cons, elem_of_nil. tauto.
Qed.

Lemma post_commands_settled_witness :
  Hooks.post_commands dict_defined dict_value dict_append
    (<["HOUDINI_DSO_PATH" := "/studio/dso:&"]> (<["PATH" := "/usr/bin"]> ∅))
  = <["HOUDINI_DSO_PATH" := "/studio/dso:&"]> (<["PATH" := "/usr/bin"]> ∅).
Proof.
  apply (post_commands_settled dict_defined dict_value dict_append).
  intros k Hin.
  apply elem_of_special_paths in Hin as [H|[H|[H|[H|H]]]]; subst k;
    vm_compute; congruence.
Defined.

Lemma post_commands_frame_witness :
  dict_defined
    (Hooks.post_commands dict_defined dict_value dict_append env_example)
    "HOUDINI_SCRIPT_PATH" = false ∧
  dict_value
    (Hooks.post_commands dict_defined dict_value dict_append env_example)
    "PATH" = "/usr/bin" ∧
  dict_value
    (Hooks.post_commands dict_defined dict_value dict_append env_example)
    "HOUDINI_DSO_PATH" = "/studio/dso:&".
Proof.
  split_and!.
  - apply (post_commands_frame dict_defined dict_value dict_append
             dict_append_defined dict_append_defined_other
             dict_append_value_other env_example "HOUDINI_SCRIPT_PATH").
  - apply (post_commands_frame dict_defined dict_value dict_append
             dict_append_defined dict_append_defined_other
             dict_append_value_other env_example "PATH").
    left. intros Hin%elem_of_special_paths.
    destruct Hin as [H|[H|[H|[H|H]]]]; discriminate.
  - apply (post_commands_frame dict_defined dict_value dict_append
             dict_append_defined dict_append_defined_other
             dict_append_value_other env_example "HOUDINI_DSO_PATH").
    right; right. reflexivity.
Defined.

Lemma post_commands_ampersand_witness :
  dict_defined
    (Hooks.post_commands dict_defined dict_value dict_append env_example)
    "HOUDINI_PATH" = true ∧
  str_contains "&"
    (dict_value
       (Hooks.post_commands dict_defined dict_value dict_append env_example)
       "HOUDINI_PATH") = true.
Proof.
  apply (post_commands_ampersand dict_defined dict_value dict_append
           dict_append_defined dict_append_defined_other
           dict_append_value_other dict_append_value env_example "HOUDINI_PATH").
  - apply list_elem_of_here.
  - reflexivity.
Defined.

Lemma post_commands_idempotent_witness :
  Hooks.post_commands dict_defined dict_value dict_append
    (Hooks.post_commands dict_defined dict_value dict_append env_example)
  = Hooks.post_commands dict_defined dict_value dict_append env_example.
Proof.
  apply (post_commands_idempotent dict_defined dict_value dict_append
           dict_append_defined dict_append_defined_other
           dict_append_value_other dict_append_value env_example).
Defined.

Section PreCommandsFacts.
Context {Env : Type}.
Variable setenv : Env → string → string → Env.
Variable prepend : Env → string → string → Env.
Variable append : Env → string → string → Env.

Abbreviation export := (Hooks.export_python_version setenv).
Abbreviation pre := (Hooks.pre_commands setenv prepend append).

Lemma export_python_version_missing (this : Hooks.This)
    (rs : list Hooks.Requirement) (env : Env) :
  (∀ r, r ∈ rs → Hooks.req_name r ≠ "python") →
  export this rs env =
    Raise (RuntimeError
             ("Could not determine Python version for " +:+ Hooks.this_str this)).
Proof.
  induction rs as [|r rs IH]; intros Hall; [done|].
  cbn [Hooks.export_python_version].
  destruct (String.eqb_spec (Hooks.req_name r) "python") as [Heq|_].
  - by destruct (Hall r (list_elem_of_here _ _)).
  - apply IH. intros x Hx. by apply Hall, list_elem_of_further.
Qed.

Lemma export_python_version_first (this : Hooks.This)
    (before after : list Hooks.Requirement) (r : Hooks.Requirement) (env : Env) :
  (∀ x, x ∈ before → Hooks.req_name x ≠ "python") →
  Hooks.req_name r = "python" →
  export this (before ++ r :: after) env =
    Ok (setenv env "HOUDINI_PYTHON_VERSION"
          (str_slice_from 1 (Hooks.req_first_range r))).
Proof.
  intros Hbefore Hr. induction before as [|x before IH].
  - cbn [app Hooks.export_python_version]. by rewrite Hr.
  - cbn [app Hooks.export_python_version].
    destruct (String.eqb_spec (Hooks.req_name x) "python") as [Heq|_].
    + by destruct (Hbefore x (list_elem_of_here _ _)).
    + apply IH. intros y Hy. by apply Hbefore, list_elem_of_further.
Qed.

Lemma export_python_version_returns (this : Hooks.This)
    (rs : list Hooks.Requirement) (env : Env) :
  returns (export this rs env) ↔ ∃ r, r ∈ rs ∧ Hooks.req_name r = "python".
Proof.
  induction rs as [|r rs IH]; cbn [Hooks.export_python_version].
  - split; [by intros [? ?]|]. intros (r & Hin & _). by apply elem_of_nil in Hin.
  - destruct (String.eqb_spec (Hooks.req_name r) "python") as [Heq|Hne].
    + split; [|by eexists]. intros _. exists r. split; [apply list_elem_of_here|done].
    + rewrite IH. split.
      * intros (x & Hin & Hx). exists x. split; [by apply list_elem_of_further|done].
      * intros (x & Hin & Hx). apply elem_of_cons in Hin as [->|Hin]; [done|].
        by exists x.
Qed.

Lemma pre_commands_returns (this : Hooks.This) (env : Env) :
  returns (pre this env) ↔ returns (export this (Hooks.requires this) env).
Proof.
  unfold Hooks.pre_commands.
  destruct (export this (Hooks.requires this) env) as [env'|e];
    cbn [mbind result_bind and_then]; (split; intros [a Ha]); try discriminate;
    by eexists.
Qed.

(** X16.  [pre_commands] returns exactly when [this.requires] has an
    entry named [python]; when it has none, [pre_commands] raises the
    [RuntimeError] that names the package. *)
Theorem pre_commands_python_requirement (this : Hooks.This) (env : Env) :
  (returns (Hooks.pre_commands setenv prepend append this env) ↔
   ∃ r, r ∈ Hooks.requires this ∧ Hooks.req_name r = "python") ∧
  ((∀ r, r ∈ Hooks.requires this → Hooks.req_name r ≠ "python") →
   Hooks.pre_commands setenv prepend append this env =
     Raise (RuntimeError
              ("Could not determine Python version for " +:+ Hooks.this_str this))).
Proof.
  split.
  - by rewrite pre_commands_returns, export_python_version_returns.
  - intros Hall. unfold Hooks.pre_commands.
    by rewrite export_python_version_missing.
Qed.

(** X17.  Only the first requirement named [python] counts: the entries
    before it and after it do not change what [pre_commands] does. *)
Theorem pre_commands_first_python (this : Hooks.This)
    (before after : list Hooks.Requirement) (r : Hooks.Requirement) (env : Env) :
  Hooks.requires this = before ++ r :: after →
  (∀ x, x ∈ before → Hooks.req_name x ≠ "python") →
  Hooks.req_name r = "python" →
  Hooks.pre_commands setenv prepend append this env
  = Hooks.pre_commands setenv prepend append
      (Hooks.mkThis [r] (Hooks.this_str this)) env.
Proof.
  intros Hreq Hbefore Hr. unfold Hooks.pre_commands.
  rewrite Hreq, export_python_version_first by done.
  cbn [Hooks.requires].
  by rewrite (export_python_version_first _ [] [] r) by (done || set_solver).
Qed.
End PreCommandsFacts.

Lemma pre_commands_python_requirement_witness :
  returns (Hooks.pre_commands dict_setenv dict_prepend dict_append
             (Hooks.mkThis [Hooks.mkRequirement "platform" "linux";
                            Hooks.mkRequirement "python" "3.9"]
                "houdinier-19.5.493")
             ∅) ∧
  Hooks.pre_commands dict_setenv dict_prepend dict_append
    (Hooks.mkThis [Hooks.mkRequirement "platform" "linux"] "houdinier-19.5.493")
    (∅ : gmap string string)
  = Raise (RuntimeError
             "Could not determine Python version for houdinier-19.5.493").
Proof.
  split.
  - apply (pre_commands_python_requirement dict_setenv dict_prepend dict_append).
    exists (Hooks.mkRequirement "python" "3.9"). split; [|reflexivity].
    apply list_elem_of_further, list_elem_of_here.
  - apply (pre_commands_python_requirement dict_setenv dict_prepend dict_append
             (Hooks.mkThis [Hooks.mkRequirement "platform" "linux"]
                "houdinier-19.5.493")).
    intros r Hin. apply list_elem_of_singleton in Hin as ->. discriminate.
Defined.

Lemma pre_commands_first_python_witness :
  Hooks.pre_commands dict_setenv dict_prepend dict_append
    (Hooks.mkThis [Hooks.mkRequirement "platform" "linux";
                   Hooks.mkRequirement "python" "3.9";
                   Hooks.mkRequirement "python" "3.11"]
       "houdinier-19.5.493")
    (∅ : gmap string string)
  = Hooks.pre_commands dict_setenv dict_prepend dict_append
      (Hooks.mkThis [Hooks.mkRequirement "python" "3.9"] "houdinier-19.5.493")
      ∅.
Proof.
  apply (pre_commands_first_python dict_setenv dict_prepend dict_append
           (Hooks.mkThis [Hooks.mkRequirement "platform" "linux";
                          Hooks.mkRequirement "python" "3.9";
                          Hooks.mkRequirement "python" "3.11"]
              "houdinier-19.5.493")
           [Hooks.mkRequirement "platform" "linux"]
           [Hooks.mkRequirement "python" "3.11"]
           (Hooks.mkRequirement "python" "3.9")).
  - reflexivity.
  - intros x Hin. apply list_elem_of_singleton in Hin as ->. discriminate.
  - reflexivity.
Defined.
